(** * ai-code-guardian: the analyzer and the bug-pattern detector

    A shallow embedding of [code_guardian/analyzer.py] and
    [code_guardian/bug_pattern_detector.py], with the part of Python's [ast]
    module both files rely on ([ast.AST] nodes, [ast.iter_child_nodes],
    [ast.walk]). *)

From Stdlib Require Import ZArith Ascii String.
From stdpp Require Import gmap strings list fin_maps pretty.
From Equations Require Import Equations.

Local Open Scope string_scope.
Local Open Scope Z_scope.
Local Open Scope list_scope.

(** ** Python's [ast] module *)

Module ast.

(** [alias(identifier name, identifier? asname)] *)
Record alias := { name : string; asname : option string }.

(** [arguments(arg* posonlyargs, arg* args, arg? vararg, arg* kwonlyargs,
    expr* kw_defaults, arg? kwarg, expr* defaults)]; an entry of
    [kw_defaults] is [None] for a keyword-only parameter without default. *)
Record arguments (N : Type) := {
  posonlyargs : list N;
  args : list N;
  vararg : option N;
  kwonlyargs : list N;
  kw_defaults : list (option N);
  kwarg : option N;
  defaults : list N
}.
Arguments posonlyargs {N} _.
Arguments args {N} _.
Arguments vararg {N} _.
Arguments kwonlyargs {N} _.
Arguments kw_defaults {N} _.
Arguments kwarg {N} _.
Arguments defaults {N} _.

(** The node classes the two source files test with [isinstance] or read
    fields of, with their fields in [_fields] order (fields holding neither a
    node nor an inspected attribute are left out), and [Other] for every
    remaining class, given by its class name and its child nodes. *)
#[warnings="-register-all"] Inductive AST : Type :=
| Module (body type_ignores : list AST)
| FunctionDef (name : string) (args : arguments AST) (body decorator_list : list AST)
    (returns : option AST) (type_params : list AST)
| ClassDef (name : string) (bases keywords body decorator_list type_params : list AST)
| For (target iter : AST) (body orelse : list AST)
| While (test : AST) (body orelse : list AST)
| If (test : AST) (body orelse : list AST)
| Import (names : list alias)
| ImportFrom (module : option string) (names : list alias) (level : nat)
| BoolOp (op : AST) (values : list AST)
| Dict (keys : list (option AST)) (values : list AST)
| Set_ (elts : list AST)
| List (elts : list AST) (ctx : AST)
| Call (func : AST) (args keywords : list AST)
| Attribute (value : AST) (attr : string) (ctx : AST)
| Name (id : string) (ctx : AST)
| ExceptHandler (type : option AST) (name : option string) (body : list AST)
| Arguments (a : arguments AST)
| Alias (a : alias)
| Other (class_name : string) (children : list AST).

(** A field contributes to [iter_child_nodes] when it is a node, and a list
    field contributes its items that are nodes ([None] items are skipped). *)
Definition field_node {N : Type} (field : option N) : list N :=
  match field with Some n => [n] | None => [] end.

Definition field_items {N : Type} (field : list (option N)) : list N :=
  flat_map field_node field.

Definition arguments_children {N : Type} (a : arguments N) : list N :=
  posonlyargs a ++ args a ++ field_node (vararg a) ++ kwonlyargs a
    ++ field_items (kw_defaults a) ++ field_node (kwarg a) ++ defaults a.

(** [ast.iter_child_nodes(node)]: the direct child nodes, field by field. *)
Definition iter_child_nodes (node : AST) : list AST :=
  match node with
  | Module body type_ignores => body ++ type_ignores
  | FunctionDef _ a body decorator_list returns type_params =>
      [Arguments a] ++ body ++ decorator_list ++ field_node returns ++ type_params
  | ClassDef _ bases keywords body decorator_list type_params =>
      bases ++ keywords ++ body ++ decorator_list ++ type_params
  | For target iter body orelse => [target; iter] ++ body ++ orelse
  | While test body orelse => [test] ++ body ++ orelse
  | If test body orelse => [test] ++ body ++ orelse
  | Import names => map Alias names
  | ImportFrom _ names _ => map Alias names
  | BoolOp op values => [op] ++ values
  | Dict keys values => field_items keys ++ values
  | Set_ elts => elts
  | List elts ctx => elts ++ [ctx]
  | Call func args keywords => [func] ++ args ++ keywords
  | Attribute value _ ctx => [value; ctx]
  | Name _ ctx => [ctx]
  | ExceptHandler type _ body => field_node type ++ body
  | Arguments a => arguments_children a
  | Alias _ => []
  | Other _ children => children
  end.

(** Bottom-up fold over a tree: [f] receives a node and the results for its
    child nodes, in [iter_child_nodes] order. *)
Section Fold.
Context {A : Type} (f : AST -> list A -> A).

Fixpoint tree_fold (node : AST) : A :=
  let nodes := map tree_fold in
  let node_opt := fun o : option AST =>
    match o with Some n => [tree_fold n] | None => [] end in
  let items := flat_map node_opt in
  let of_arguments := fun a : arguments AST =>
    match a with
    | Build_arguments _ po ar va kwo kwd kwa de =>
        nodes po ++ nodes ar ++ node_opt va ++ nodes kwo
          ++ items kwd ++ node_opt kwa ++ nodes de
    end in
  f node
    match node with
    | Module body type_ignores => nodes body ++ nodes type_ignores
    | FunctionDef _ a body decorator_list returns type_params =>
        [f (Arguments a) (of_arguments a)] ++ nodes body ++ nodes decorator_list
          ++ node_opt returns ++ nodes type_params
    | ClassDef _ bases keywords body decorator_list type_params =>
        nodes bases ++ nodes keywords ++ nodes body ++ nodes decorator_list
          ++ nodes type_params
    | For target iter body orelse =>
        [tree_fold target; tree_fold iter] ++ nodes body ++ nodes orelse
    | While test body orelse => [tree_fold test] ++ nodes body ++ nodes orelse
    | If test body orelse => [tree_fold test] ++ nodes body ++ nodes orelse
    | Import names => map (fun a => f (Alias a) []) names
    | ImportFrom _ names _ => map (fun a => f (Alias a) []) names
    | BoolOp op values => [tree_fold op] ++ nodes values
    | Dict keys values => items keys ++ nodes values
    | Set_ elts => nodes elts
    | List elts ctx => nodes elts ++ [tree_fold ctx]
    | Call func args keywords => [tree_fold func] ++ nodes args ++ nodes keywords
    | Attribute value _ ctx => [tree_fold value; tree_fold ctx]
    | Name _ ctx => [tree_fold ctx]
    | ExceptHandler type _ body => node_opt type ++ nodes body
    | Arguments a => of_arguments a
    | Alias _ => []
    | Other _ children => nodes children
    end.
End Fold.

(** Termination of [walk]: the size of a node is one more than the sizes of
    its children together, so the queue loses weight at each step. *)
Lemma map_field_node {N B : Type} (g : N -> B) (o : option N) :
  map g (field_node o) = match o with Some n => [g n] | None => [] end.
Proof. by destruct o. Qed.

Lemma map_field_items {N B : Type} (g : N -> B) (l : list (option N)) :
  map g (field_items l)
  = flat_map (fun o => match o with Some n => [g n] | None => [] end) l.
Proof.
  induction l as [|o l IH]; [done|].
  unfold field_items in *; simpl. by rewrite map_app, IH, map_field_node.
Qed.

(** The fold at a node is [f] of the node and the folds of its children. *)
Lemma tree_fold_unfold {A : Type} (f : AST -> list A -> A) (node : AST) :
  tree_fold f node = f node (map (tree_fold f) (iter_child_nodes node)).
Proof.
  assert (Hargs : forall a : arguments AST,
    map (tree_fold f) (arguments_children a)
    = match a with
      | Build_arguments _ po ar va kwo kwd kwa de =>
          map (tree_fold f) po ++ map (tree_fold f) ar
            ++ match va with Some n => [tree_fold f n] | None => [] end
            ++ map (tree_fold f) kwo
            ++ flat_map (fun o : option AST =>
                 match o with Some n => [tree_fold f n] | None => [] end) kwd
            ++ match kwa with Some n => [tree_fold f n] | None => [] end
            ++ map (tree_fold f) de
      end).
  { intros [po ar va kwo kwd kwa de]. unfold arguments_children; simpl.
    by rewrite !map_app, !map_field_node, map_field_items. }
  destruct node; simpl;
    rewrite ?map_app, ?map_field_node, ?map_field_items, ?Hargs, ?map_map;
    reflexivity.
Qed.

(** Number of nodes of a tree. *)
Definition size : AST -> nat := tree_fold (fun _ sizes => S (sum_list sizes)).

(** Every node of a tree, each before its descendants, children in field
    order (depth-first). *)
Definition nodes : AST -> list AST := tree_fold (fun node below => node :: concat below).

Lemma size_unfold (node : AST) :
  size node = S (sum_list_with size (iter_child_nodes node)).
Proof.
  unfold size at 1. rewrite tree_fold_unfold. f_equal.
  induction (iter_child_nodes node) as [|c l IH]; simpl; [done|]. by rewrite IH.
Qed.

(** [ast.walk(node)]: a queue starts with the root; the front node is taken
    off, its child nodes are added at the back, and the node is yielded. *)
Equations? walk_queue (todo : list AST) : list AST
  by wf (sum_list_with size todo) lt :=
  walk_queue [] := [];
  walk_queue (node :: todo) := node :: walk_queue (todo ++ iter_child_nodes node).
Proof. rewrite sum_list_with_app, (size_unfold node). lia. Qed.

Definition walk (node : AST) : list AST := walk_queue [node].

End ast.

(** ** Values, exceptions and the library calls *)

(** What a call can raise: [SyntaxError], the one class the source catches,
    or an exception of any other class. [str] is the text of [str(e)]. *)
Inductive exn :=
| SyntaxError (str : string)
| Exception (class_name str : string).

(** The values stored in the analysis result. *)
#[warnings="-register-all"] Inductive value :=
| VInt (n : Z)
| VStr (s : string)
| VList (items : list value)
| VDict (items : list (string * value)).

(** The two library functions the source calls on the code text: CPython's
    parser, which returns a tree or raises, and the regular-expression
    search. *)
Class Libraries := {
  ast_parse : string -> exn + ast.AST;
  re_findall : string -> string -> list string
}.

(** [str(e)] *)
Definition exn_str (e : exn) : string :=
  match e with
  | SyntaxError str => str
  | Exception _ str => str
  end.

(** The file system as [analyze_file] and [analyze_directory] reach it:
    [Path(p).exists()], which answers or raises (a directory that may not be
    searched), [open(p, 'r', encoding='utf-8').read()], which returns the
    text or raises, [Path(p).suffix], and [Path(p).rglob(pattern)], which
    yields paths (taken as strings) or raises on a pattern it does not accept,
    such as [**.py]. *)
Class FileSystem := {
  path_exists : string -> exn + bool;
  read_text : string -> exn + string;
  path_suffix : string -> string;
  rglob : string -> string -> exn + list string
}.

(** [str(v)] for a list or a dict, which the report writer leaves to Python. *)
Class Builtins := {
  str_container : value -> string
}.

(** The text an f-string field shows for a value: [str(v)]. *)
Definition str `{Builtins} (v : value) : string :=
  match v with
  | VInt n => pretty n
  | VStr s => s
  | VList _ | VDict _ => str_container v
  end.

(** [bool(v)]: zero and empty values are false. *)
Definition truthy (v : value) : bool :=
  match v with
  | VInt n => negb (n =? 0)
  | VStr EmptyString | VList [] | VDict [] => false
  | _ => true
  end.

(** What [for x in v] runs over: the items of a list, the characters of a
    string, the keys of a dict; an int cannot be iterated. *)
Definition iterate (v : value) : exn + list value :=
  match v with
  | VList items => inr items
  | VStr s => inr (map (fun c => VStr (String c "")) (list_ascii_of_string s))
  | VDict items => inr (map (fun item => VStr item.1) items)
  | VInt _ => inl (Exception "TypeError" "'int' object is not iterable")
  end.

(** [sum(vs)]: starts from [0] and adds the values in turn; adding anything
    but an int to the running int raises. *)
Definition sum_values (vs : list value) : exn + Z :=
  foldl (fun total v =>
           match total, v with
           | inl e, _ => inl e
           | inr total, VInt n => inr (total + n)
           | inr _, VStr _ =>
               inl (Exception "TypeError"
                      "unsupported operand type(s) for +: 'int' and 'str'")
           | inr _, VList _ =>
               inl (Exception "TypeError"
                      "unsupported operand type(s) for +: 'int' and 'list'")
           | inr _, VDict _ =>
               inl (Exception "TypeError"
                      "unsupported operand type(s) for +: 'int' and 'dict'")
           end)
        (inr 0) vs.

(** The text of a line break. *)
Definition newline : string := String "010"%char "".

(** [len(xs)] *)
Definition len {A : Type} (xs : list A) : Z := Z.of_nat (length xs).

(** [sum(xs)] *)
Definition sum (xs : list Z) : Z := foldl Z.add 0 xs.

(** [s.split('\n')] *)
Fixpoint split_newline (s : string) : list string :=
  match s with
  | EmptyString => [""]
  | String c rest =>
      if Ascii.eqb c "010"%char then "" :: split_newline rest
      else match split_newline rest with
           | piece :: pieces => String c piece :: pieces
           | [] => [String c ""]
           end
  end.

(** ** [analyzer.py]: class [CodeAnalyzer] *)

Module CodeAnalyzer.

(** The attributes [__init__] gives an analyzer. *)
Record t := { results : list (gmap string value); metrics : gmap string value }.

Section CodeAnalyzer.
Context `{Libraries}.

Definition _calculate_complexity (self : t) (tree : ast.AST) : Z :=
  foldl (fun complexity node =>
           match node with
           | ast.If _ _ _ | ast.While _ _ _ | ast.For _ _ _ _
           | ast.ExceptHandler _ _ _ => complexity + 1
           | ast.BoolOp _ values => complexity + (len values - 1)
           | _ => complexity
           end)
        1 (ast.walk tree).

Definition _count_functions (self : t) (tree : ast.AST) : Z :=
  sum (omap (fun node => match node with
                         | ast.FunctionDef _ _ _ _ _ _ => Some 1
                         | _ => None
                         end) (ast.walk tree)).

Definition _count_classes (self : t) (tree : ast.AST) : Z :=
  sum (omap (fun node => match node with
                         | ast.ClassDef _ _ _ _ _ _ => Some 1
                         | _ => None
                         end) (ast.walk tree)).

Definition _extract_imports (self : t) (tree : ast.AST) : list string :=
  foldl (fun imports node =>
           match node with
           | ast.Import names =>
               foldl (fun imports name => imports ++ [ast.name name]) imports names
           | ast.ImportFrom module names _ =>
               let module := default "" module in
               foldl (fun imports name =>
                        imports ++ [module +:+ "." +:+ ast.name name])
                     imports names
           | _ => imports
           end)
        [] (ast.walk tree).

Definition _analyze_python (self : t) (code : string) : exn + gmap string value :=
  match ast_parse code with
  | inr tree =>
      inr {[ "complexity" := VInt (_calculate_complexity self tree);
             "functions" := VInt (_count_functions self tree);
             "classes" := VInt (_count_classes self tree);
             "imports" := VList (VStr <$> _extract_imports self tree) ]}
  | inl (SyntaxError e) => inr {[ "syntax_error" := VStr e ]}
  | inl e => inl e
  end.

Definition _analyze_javascript (self : t) (code : string) : gmap string value :=
  {[ "functions" := VInt (len (re_findall "function\s+\w+" code));
     "arrow_functions" := VInt (len (re_findall "=>" code));
     "classes" := VInt (len (re_findall "class\s+\w+" code)) ]}.

(** [d.update(other)]: the entries of [other] win. *)
Definition update (d other : gmap string value) : gmap string value := other ∪ d.

Definition _analyze_code (self : t) (code file_extension : string) : exn + gmap string value :=
  let results : gmap string value :=
    {[ "lines_of_code" := VInt (len (split_newline code));
       "file_type" := VStr file_extension;
       "issues" := VList [];
       "metrics" := VDict [] ]} in
  if decide (file_extension = ".py") then
    match _analyze_python self code with
    | inr analysis => inr (update results analysis)
    | inl e => inl e
    end
  else if decide (file_extension ∈ [".js"; ".ts"]) then
    inr (update results (_analyze_javascript self code))
  else inr results.

Context `{FileSystem} `{Builtins}.

(** [analyze_file]: every exception raised inside the [try] block is caught
    and turned into an [error] result (the log line is left out). *)
Definition analyze_file (self : t) (file_path : string) : gmap string value :=
  let attempt : exn + gmap string value :=
    match path_exists file_path with
    | inl e => inl e
    | inr false =>
        inl (Exception "FileNotFoundError" ("File not found: " +:+ file_path))
    | inr true =>
        match read_text file_path with
        | inr content => _analyze_code self content (path_suffix file_path)
        | inl e => inl e
        end
    end in
  match attempt with
  | inr results => results
  | inl e => {[ "error" := VStr (exn_str e) ]}
  end.

(** [analyze_directory]; [extensions] is [None] when the caller leaves it
    out (the log lines are left out). The loops are in no [try] block: an
    exception of [rglob] ends the scan and takes the results so far with
    it. *)
Definition analyze_directory (self : t) (dir_path : string)
    (extensions : option (list string)) : exn + list (gmap string value) :=
  let extensions :=
    match extensions with
    | None => [".py"; ".js"; ".ts"; ".java"; ".cpp"]
    | Some extensions => extensions
    end in
  foldl (fun results ext =>
           match results with
           | inl e => inl e
           | inr results =>
               match rglob dir_path ("*" +:+ ext) with
               | inl e => inl e
               | inr file_paths =>
                   inr (foldl (fun results file_path =>
                                 let result := analyze_file self file_path in
                                 let result :=
                                   <["file_path" := VStr file_path]> result in
                                 results ++ [result])
                              results file_paths)
               end
           end)
        (inr []) extensions.

(** [generate_report]: the report text, or the exception that adding up the
    line counts or listing the issues raises. *)
Definition generate_report (self : t) (results : list (gmap string value))
  : exn + string :=
  let report := "# Code Analysis Report" +:+ newline +:+ newline in
  let report :=
    report +:+ "Total files analyzed: " +:+ pretty (len results)
      +:+ newline +:+ newline in
  match sum_values (map (fun r => default (VInt 0) (r !! "lines_of_code")) results) with
  | inl e => inl e
  | inr total_loc =>
      let report :=
        report +:+ "Total lines of code: " +:+ pretty total_loc
          +:+ newline +:+ newline in
      foldl (fun report result =>
               match report with
               | inl e => inl e
               | inr report =>
                   let report :=
                     report +:+ "## "
                       +:+ str (default (VStr "Unknown") (result !! "file_path"))
                       +:+ newline in
                   let report :=
                     report +:+ "- Lines: "
                       +:+ str (default (VInt 0) (result !! "lines_of_code"))
                       +:+ newline in
                   let report :=
                     report +:+ "- Complexity: "
                       +:+ str (default (VStr "N/A") (result !! "complexity"))
                       +:+ newline in
                   let listed :=
                     match result !! "issues" with
                     | Some issues =>
                         if truthy issues then
                           match iterate issues with
                           | inr issues =>
                               inr (foldl (fun report issue =>
                                             report +:+ "  - " +:+ str issue
                                               +:+ newline)
                                          (report +:+ "- Issues found:" +:+ newline)
                                          issues)
                           | inl e => inl e
                           end
                         else inr report
                     | None => inr report
                     end in
                   match listed with
                   | inr report => inr (report +:+ newline)
                   | inl e => inl e
                   end
               end)
            (inr report) results
  end.

End CodeAnalyzer.
End CodeAnalyzer.

(** ** [bug_pattern_detector.py]: class [BugPatternDetector] *)

(** A finding is a dict from field name to text. *)
Abbreviation finding := (gmap string string).

(** The objects a detector works on: the list objects created so far, each
    known by its identity (its index in [heap]), and the attribute
    [self.patterns], which refers to one of them. *)
Record world := { heap : list (list finding); self_patterns : nat }.

(** A computation reads and updates the world and returns a value or raises;
    what it did to the world before raising stays done. *)
Definition M (A : Type) : Type := world -> (exn + A) * world.

#[export] Instance M_ret : MRet M := fun A a w => (inr a, w).

#[export] Instance M_bind : MBind M := fun A B k m w =>
  match m w with
  | (inr a, w') => k a w'
  | (inl e, w') => (inl e, w')
  end.

Definition raise {A : Type} (e : exn) : M A := fun w => (inl e, w).

(** [try: body / except: handler] *)
Definition try_except {A : Type} (body : M A) (handler : exn -> M A) : M A :=
  fun w => match body w with
           | (inl e, w') => handler e w'
           | done => done
           end.

(** A library call, which only returns or raises. *)
Definition call {A : Type} (r : exn + A) : M A := fun w => (r, w).

(** [[]]: a new, empty list object. *)
Definition new_list : M nat :=
  fun w => (inr (length (heap w)),
            {| heap := heap w ++ [[]]; self_patterns := self_patterns w |}).

(** [self.patterns = l] *)
Definition set_self_patterns (l : nat) : M unit :=
  fun w => (inr tt, {| heap := heap w; self_patterns := l |}).

(** [self.patterns] *)
Definition get_self_patterns : M nat := fun w => (inr (self_patterns w), w).

(** [l.append(x)]: the list object itself is changed. *)
Definition append (l : nat) (x : finding) : M unit :=
  fun w => (inr tt,
            {| heap := alter (fun xs => xs ++ [x]) l (heap w);
               self_patterns := self_patterns w |}).

(** [for x in xs: body] *)
Fixpoint for_each {A : Type} (xs : list A) (body : A -> M unit) : M unit :=
  match xs with
  | [] => mret tt
  | x :: xs => body x ;; for_each xs body
  end.

Module BugPatternDetector.

Definition _check_bare_except (tree : ast.AST) : M unit :=
  for_each (ast.walk tree) (fun node =>
    match node with
    | ast.ExceptHandler None _ _ =>
        patterns ← get_self_patterns;
        append patterns
          {[ "type" := "Bare Except Clause";
             "severity" := "MEDIUM";
             "description" :=
               "Bare except catches all exceptions, including system exits" ]}
    | _ => mret tt
    end).

Definition _check_mutable_defaults (tree : ast.AST) : M unit :=
  for_each (ast.walk tree) (fun node =>
    match node with
    | ast.FunctionDef name args _ _ _ _ =>
        for_each (ast.defaults args) (fun arg =>
          match arg with
          | ast.List _ _ | ast.Dict _ _ | ast.Set_ _ =>
              patterns ← get_self_patterns;
              append patterns
                {[ "type" := "Mutable Default Argument";
                   "severity" := "HIGH";
                   "description" :=
                     "Mutable default arguments can cause unexpected behavior";
                   "function" := name ]}
          | _ => mret tt
          end)
    | _ => mret tt
    end).

Definition _check_unused_variables (tree : ast.AST) : M unit := mret tt.

(** The three checks are methods, looked up on [self] at each call: a
    subclass may replace any of them. *)
Record methods := {
  check_bare_except : ast.AST -> M unit;
  check_mutable_defaults : ast.AST -> M unit;
  check_unused_variables : ast.AST -> M unit
}.

(** The class as the file defines it. *)
Definition base : methods :=
  {| check_bare_except := _check_bare_except;
     check_mutable_defaults := _check_mutable_defaults;
     check_unused_variables := _check_unused_variables |}.

Section Detect.
Context `{Libraries} (self : methods).

Definition _detect_python_patterns (code : string) : M unit :=
  try_except
    (tree ← call (ast_parse code);
     check_bare_except self tree;;
     check_mutable_defaults self tree;;
     check_unused_variables self tree)
    (fun e => match e with
              | SyntaxError _ => mret tt
              | _ => raise e
              end).

Definition detect (code file_type : string) : M nat :=
  patterns ← new_list;
  set_self_patterns patterns;;
  (if decide (file_type = ".py") then _detect_python_patterns code
   else mret tt);;
  get_self_patterns.
End Detect.

End BugPatternDetector.

(** ** [vulnerability_detector.py]: class [VulnerabilityDetector]

    The file is imported by [__init__.py] and called by
    [examples/basic_usage.py], but is not part of the sources at hand. *)

Module VulnerabilityDetector.

Inductive kind := Vulnerability | BugPattern.
Inductive severity := LOW | MEDIUM | HIGH | CRITICAL.
Inductive language := Python | JavaScriptLike | Unknown.

(** Modelled from the spec: the [Finding] record of section 3, without its
    optional location. *)
Record Finding := {
  finding_kind : kind;
  finding_type : string;
  finding_severity : severity;
  description : string
}.

(** Modelled from the spec: the [Rule] record of section 3; [evaluate] reads
    the text and, when there is one, the tree. *)
Record Rule := {
  id : string;
  applicableLanguages : list language;
  evaluate : string -> option ast.AST -> list Finding
}.

#[export] Instance language_eq_dec : EqDecision language.
Proof. solve_decision. Defined.

(** Modelled from the spec: the extension-to-language mapping of section 6. *)
Definition language_of (file_type : string) : language :=
  if decide (file_type = ".py") then Python
  else if decide (file_type ∈ [".js"; ".ts"]) then JavaScriptLike
  else Unknown.

(** Modelled from the spec: the rule engine of section 4.3, for rules that do
    not fault: every applicable rule, in registration order, outputs
    concatenated. *)
Definition run (rules : list Rule) (lang : language) (text : string)
    (tree : option ast.AST) : list Finding :=
  flat_map (fun rule =>
              if decide (lang ∈ applicableLanguages rule)
              then evaluate rule text tree else [])
           rules.






(** Modelled from the spec: [VulnerabilityDetector.detect(code, file_type)] as
    [examples/basic_usage.py] calls it, for a detector with the rules
    [registered]: the adapter of section 4.1 gives the tree (no tree after a
    parse failure), then the rule engine runs the registered rules. *)
Definition detect `{Libraries} (registered : list Rule) (code file_type : string)
  : list Finding :=
  let lang := language_of file_type in
  let tree := match lang with
              | Python => match ast_parse code with inr tree => Some tree | inl _ => None end
              | _ => None
              end in
  run registered lang code tree.

End VulnerabilityDetector.

(** ** Sample sources

    Source texts with the trees CPython's [ast.parse] builds for them, used
    where a statement is evaluated on a concrete input. *)

Module Samples.

Definition Load : ast.AST := ast.Other "Load" [].
Definition Store : ast.AST := ast.Other "Store" [].
Definition Pass : ast.AST := ast.Other "Pass" [].
Definition Constant : ast.AST := ast.Other "Constant" [].
Definition arg : ast.AST := ast.Other "arg" [].
Definition Assign (target value : ast.AST) : ast.AST := ast.Other "Assign" [target; value].
Definition Return (value : ast.AST) : ast.AST := ast.Other "Return" [value].

Definition positional (args defaults : list ast.AST) : ast.arguments ast.AST :=
  {| ast.posonlyargs := []; ast.args := args; ast.vararg := None;
     ast.kwonlyargs := []; ast.kw_defaults := []; ast.kwarg := None;
     ast.defaults := defaults |}.

Definition keyword_only (kwonlyargs : list ast.AST) (kw_defaults : list (option ast.AST))
  : ast.arguments ast.AST :=
  {| ast.posonlyargs := []; ast.args := []; ast.vararg := None;
     ast.kwonlyargs := kwonlyargs; ast.kw_defaults := kw_defaults; ast.kwarg := None;
     ast.defaults := [] |}.

Definition alias (name : string) : ast.alias := {| ast.name := name; ast.asname := None |}.

(** The sample of [examples/basic_usage.py] (its string literal written with
    single quotes). *)
Definition usage_source : string :=
"
import pickle

def process_data(data):
    password = 'hardcoded123'
    result = eval(data)
    return result

def load_from_file(filename):
    with open(filename, 'rb') as f:
        return pickle.load(f)
".

Definition eval_call : ast.AST :=
  ast.Call (ast.Name "eval" Load) [ast.Name "data" Load] [].

Definition pickle_load_call : ast.AST :=
  ast.Call (ast.Attribute (ast.Name "pickle" Load) "load" Load) [ast.Name "f" Load] [].

Definition usage_tree : ast.AST :=
  ast.Module
    [ ast.Import [alias "pickle"];
      ast.FunctionDef "process_data" (positional [arg] [])
        [ Assign (ast.Name "password" Store) Constant;
          Assign (ast.Name "result" Store) eval_call;
          Return (ast.Name "result" Load) ]
        [] None [];
      ast.FunctionDef "load_from_file" (positional [arg] [])
        [ ast.Other "With"
            [ ast.Other "withitem"
                [ ast.Call (ast.Name "open" Load) [ast.Name "filename" Load; Constant] [];
                  ast.Name "f" Store ];
              Return pickle_load_call ] ]
        [] None [] ]
    [].

Definition flat_imports_source : string :=
"import os
from os import path
from . import sibling
".

Definition flat_imports_tree : ast.AST :=
  ast.Module
    [ ast.Import [alias "os"];
      ast.ImportFrom (Some "os") [alias "path"] 0;
      ast.ImportFrom None [alias "sibling"] 1 ]
    [].

Definition nested_import_source : string :=
"def f():
    import a
import b
".

Definition nested_import_tree : ast.AST :=
  ast.Module
    [ ast.FunctionDef "f" (positional [] []) [ast.Import [alias "a"]] [] None [];
      ast.Import [alias "b"] ]
    [].

Definition one_default_source : string :=
"def g(items=[]):
    pass
".

Definition one_default_tree : ast.AST :=
  ast.Module
    [ ast.FunctionDef "g" (positional [arg] [ast.List [] Load]) [Pass] [] None [] ]
    [].

Definition two_defaults_source : string :=
"def f(a=[], b={}):
    pass
".

Definition two_defaults_tree : ast.AST :=
  ast.Module
    [ ast.FunctionDef "f" (positional [arg; arg] [ast.List [] Load; ast.Dict [] []])
        [Pass] [] None [] ]
    [].

Definition keyword_only_source : string :=
"def h(*, a=[]):
    pass
".

Definition keyword_only_tree : ast.AST :=
  ast.Module
    [ ast.FunctionDef "h" (keyword_only [arg] [Some (ast.List [] Load)])
        [Pass] [] None [] ]
    [].

Definition branches_source : string :=
"try:
    if a and b:
        pass
except:
    pass
".

Definition branches_tree : ast.AST :=
  ast.Module
    [ ast.Other "Try"
        [ ast.If (ast.BoolOp (ast.Other "And" []) [ast.Name "a" Load; ast.Name "b" Load])
            [Pass] [];
          ast.ExceptHandler None None [Pass] ] ]
    [].

Definition nested_defs_source : string :=
"class A:
    def m(self):
        def inner():
            pass
".

Definition nested_defs_tree : ast.AST :=
  ast.Module
    [ ast.ClassDef "A" [] []
        [ ast.FunctionDef "m" (positional [arg] [])
            [ ast.FunctionDef "inner" (positional [] []) [Pass] [] None [] ]
            [] None [] ]
        [] [] ]
    [].

Definition clean_source : string :=
"x = 1
".

Definition clean_tree : ast.AST :=
  ast.Module [Assign (ast.Name "x" Store) Constant] [].

Definition broken_source : string :=
"def broken(:
".

Definition broken_message : string := "invalid syntax (<unknown>, line 1)".

Definition script_source : string := "function f() { return x => x }".

(** What [ast.parse] does on each sample text. *)
Definition parses : list (string * (exn + ast.AST)) :=
  [ (usage_source, inr usage_tree);
    (flat_imports_source, inr flat_imports_tree);
    (nested_import_source, inr nested_import_tree);
    (one_default_source, inr one_default_tree);
    (two_defaults_source, inr two_defaults_tree);
    (keyword_only_source, inr keyword_only_tree);
    (branches_source, inr branches_tree);
    (nested_defs_source, inr nested_defs_tree);
    (clean_source, inr clean_tree);
    (broken_source, inl (SyntaxError broken_message)) ].

(** What [re.findall] returns on the sample script. *)
Definition matches : list (string * string * list string) :=
  [ ("function\s+\w+", script_source, ["function f"]);
    ("=>", script_source, ["=>"]);
    ("class\s+\w+", script_source, []) ].

Fixpoint assoc {K V : Type} `{EqDecision K} (k : K) (table : list (K * V)) : option V :=
  match table with
  | [] => None
  | (k', v) :: table => if decide (k = k') then Some v else assoc k table
  end.

(** The two library functions restricted to the sample texts; a text outside
    the tables is refused (no parse is claimed for it) or has no match. *)
#[export] Instance libraries : Libraries :=
  {| ast_parse := fun code =>
       default (inl (Exception "NotImplementedError" "not a sample text"))
               (assoc code parses);
     re_findall := fun pattern code => default [] (assoc (pattern, code) matches) |}.

(** [CodeAnalyzer()]: what [__init__] sets. *)
Definition new_analyzer : CodeAnalyzer.t :=
  {| CodeAnalyzer.results := []; CodeAnalyzer.metrics := ∅ |}.

(** The world after [BugPatternDetector()]: [__init__] has bound
    [self.patterns] to a new empty list. *)
Definition new_detector : world := {| heap := [[]]; self_patterns := 0 |}.

(** A subclass whose first check always faults with a run-time error. *)
Definition faulty : BugPatternDetector.methods :=
  {| BugPatternDetector.check_bare_except :=
       fun _ => raise (Exception "RuntimeError" "rule failed");
     BugPatternDetector.check_mutable_defaults :=
       BugPatternDetector._check_mutable_defaults;
     BugPatternDetector.check_unused_variables :=
       BugPatternDetector._check_unused_variables |}.

End Samples.

(** ** Sample files

    A small directory for the statements about [analyze_file],
    [analyze_directory] and [generate_report]. *)

Module SampleFiles.

(** A function with a mutable default whose body has a bare handler. *)
Definition mixed_source : string :=
"def g(items=[]):
    try:
        pass
    except:
        pass
".

Definition mixed_tree : ast.AST :=
  ast.Module
    [ ast.FunctionDef "g"
        (Samples.positional [Samples.arg] [ast.List [] Samples.Load])
        [ ast.Other "Try" [Samples.Pass; ast.ExceptHandler None None [Samples.Pass]] ]
        [] None [] ]
    [].

Definition java_source : string := "class Main {}".

Definition locked_message : string :=
  "[Errno 13] Permission denied: 'proj/locked.py'".

(** The files of the directory [proj], with what reading each gives. *)
Definition files : list (string * (exn + string)) :=
  [ ("proj/app.py", inr Samples.branches_source);
    ("proj/util.py", inr mixed_source);
    ("proj/broken.py", inr Samples.broken_source);
    ("proj/locked.py", inl (Exception "PermissionError" locked_message));
    ("proj/ui.js", inr Samples.script_source);
    ("proj/Main.java", inr java_source) ].

Definition suffixes : list (string * string) :=
  [ ("proj/app.py", ".py"); ("proj/util.py", ".py"); ("proj/broken.py", ".py");
    ("proj/locked.py", ".py");
    ("proj/ui.js", ".js"); ("proj/Main.java", ".java"); ("proj/gone.py", ".py") ].

Definition globs : list (string * string * (exn + list string)) :=
  [ ("proj", "*.py",
     inr ["proj/app.py"; "proj/util.py"; "proj/broken.py"; "proj/locked.py"]);
    ("proj", "*.js", inr ["proj/ui.js"]);
    ("proj", "*.java", inr ["proj/Main.java"]);
    ("proj", "**.py",
     inl (Exception "ValueError"
            "Invalid pattern: '**' can only be an entire path component")) ].

#[export] Instance file_system : FileSystem :=
  {| path_exists := fun p => inr (bool_decide (is_Some (Samples.assoc p files)));
     read_text := fun p =>
       default (inl (Exception "FileNotFoundError" p)) (Samples.assoc p files);
     path_suffix := fun p => default "" (Samples.assoc p suffixes);
     rglob := fun p pattern => default (inr []) (Samples.assoc (p, pattern) globs) |}.

(** [str] of the two containers an analysis result holds. *)
#[export] Instance builtins : Builtins :=
  {| str_container := fun v =>
       match v with
       | VDict [] => "{}"
       | _ => "[]"
       end |}.

(** The sample library calls, with the parse of [mixed_source] added. *)
#[export] Instance libraries : Libraries :=
  {| ast_parse := fun code =>
       if decide (code = mixed_source) then inr mixed_tree
       else @ast_parse Samples.libraries code;
     re_findall := @re_findall Samples.libraries |}.

End SampleFiles.

(** ** Further sample sources *)

Module MoreSamples.

(** A text with a NUL byte, which [ast.parse] of CPython 3.11 refuses with a
    [ValueError]. *)
Definition nul_source : string := "x = 1" +:+ String "000"%char "".

Definition nul_message : string := "source code string cannot contain null bytes".

(** One function with a mutable positional default and one whose only
    mutable default is keyword-only. *)
Definition two_functions_source : string :=
"def g(b=[]):
    pass
def h(*, a=[]):
    pass
".

Definition two_functions_tree : ast.AST :=
  ast.Module
    [ ast.FunctionDef "g"
        (Samples.positional [Samples.arg] [ast.List [] Samples.Load])
        [Samples.Pass] [] None [];
      ast.FunctionDef "h"
        (Samples.keyword_only [Samples.arg] [Some (ast.List [] Samples.Load)])
        [Samples.Pass] [] None [] ]
    [].

(** The sample library calls, with these two texts added. *)
#[export] Instance libraries : Libraries :=
  {| ast_parse := fun code =>
       if decide (code = nul_source) then inl (Exception "ValueError" nul_message)
       else if decide (code = two_functions_source) then inr two_functions_tree
       else @ast_parse Samples.libraries code;
     re_findall := @re_findall Samples.libraries |}.

End MoreSamples.

(** ** Counting over a tree *)

(** Sum of [weight] over a list. *)
Definition total {A : Type} (weight : A -> Z) (xs : list A) : Z :=
  foldr (fun x rest => weight x + rest) 0 xs.

(** Number of nodes anywhere in the tree that satisfy [p]. *)
Definition count_nodes (p : ast.AST -> bool) (tree : ast.AST) : Z :=
  len (filter p (ast.nodes tree)).

(** The conditional branch nodes: [if], [while], [for] and exception
    handlers. *)
Definition is_branch (node : ast.AST) : bool :=
  match node with
  | ast.If _ _ _ | ast.While _ _ _ | ast.For _ _ _ _ | ast.ExceptHandler _ _ _ => true
  | _ => false
  end.

Definition is_bool_op (node : ast.AST) : bool :=
  match node with ast.BoolOp _ _ => true | _ => false end.

Definition is_function_def (node : ast.AST) : bool :=
  match node with ast.FunctionDef _ _ _ _ _ _ => true | _ => false end.

Definition is_class_def (node : ast.AST) : bool :=
  match node with ast.ClassDef _ _ _ _ _ _ => true | _ => false end.

(** N - 1 for a boolean operation with N operands, nothing for other nodes. *)
Definition operands_less_one (node : ast.AST) : Z :=
  match node with ast.BoolOp _ values => len values - 1 | _ => 0 end.

(** The grammar gives every boolean operation at least two operands. *)
Definition two_operands (tree : ast.AST) : bool :=
  forallb (fun node => match node with
                       | ast.BoolOp _ values => (2 <=? len values)
                       | _ => true
                       end)
          (ast.nodes tree).

(** ** Import entries *)

(** The entries one node adds to the import list: a name per alias of an
    [import] statement; module, dot and name per alias of a [from] statement,
    where an absent module leaves the dot in front of the name. *)
Definition import_entries (node : ast.AST) : list string :=
  match node with
  | ast.Import names => map ast.name names
  | ast.ImportFrom (Some module) names _ =>
      map (fun alias => module +:+ "." +:+ ast.name alias) names
  | ast.ImportFrom None names _ => map (fun alias => "." +:+ ast.name alias) names
  | _ => []
  end.

(** An import statement with a single name. *)
Definition single_import (node : ast.AST) : bool :=
  match node with
  | ast.Import [_] | ast.ImportFrom _ [_] _ => true
  | _ => false
  end.

(** The entries in the words of the specification: an absent module gives the
    imported name alone. *)
Definition claimed_import_entries (node : ast.AST) : list string :=
  match node with
  | ast.Import names => map ast.name names
  | ast.ImportFrom (Some module) names _ =>
      map (fun alias => module +:+ "." +:+ ast.name alias) names
  | ast.ImportFrom None names _ => map ast.name names
  | _ => []
  end.

(** The import list in the words of the specification: the entries of the
    statements in source order, which for statements is the depth-first
    order of the tree. *)
Definition claimed_imports (tree : ast.AST) : list string :=
  flat_map claimed_import_entries (ast.nodes tree).

(** ** Findings of the bug-pattern checks *)

Definition bare_except_finding : finding :=
  {[ "type" := "Bare Except Clause";
     "severity" := "MEDIUM";
     "description" := "Bare except catches all exceptions, including system exits" ]}.

Definition mutable_default_finding (function : string) : finding :=
  {[ "type" := "Mutable Default Argument";
     "severity" := "HIGH";
     "description" := "Mutable default arguments can cause unexpected behavior";
     "function" := function ]}.

(** A list, dict or set literal. *)
Definition is_mutable_literal (node : ast.AST) : bool :=
  match node with
  | ast.List _ _ | ast.Dict _ _ | ast.Set_ _ => true
  | _ => false
  end.

(** The findings one node gives rise to in each check: one for a handler
    without exception type; for a function definition, one per mutable
    literal among [args.defaults], the defaults of its positional
    parameters. *)
Definition bare_except_findings (node : ast.AST) : list finding :=
  match node with
  | ast.ExceptHandler None _ _ => [bare_except_finding]
  | _ => []
  end.

Definition mutable_default_findings (node : ast.AST) : list finding :=
  match node with
  | ast.FunctionDef name args _ _ _ _ =>
      replicate (length (filter is_mutable_literal (ast.defaults args)))
                (mutable_default_finding name)
  | _ => []
  end.

(** What [detect] leaves in the list it returns for a tree, when no check is
    replaced. *)
Definition python_findings (tree : ast.AST) : list finding :=
  flat_map bare_except_findings (ast.walk tree)
    ++ flat_map mutable_default_findings (ast.walk tree).

(** The world once [detect] has bound [self.patterns] to a new list. *)
Definition started (w : world) : world :=
  {| heap := heap w ++ [[]]; self_patterns := length (heap w) |}.

(** The world after [new] has been appended to the list [self.patterns]
    refers to. *)
Definition appended (w : world) (new : list finding) : world :=
  {| heap := alter (fun xs => xs ++ new) (self_patterns w) (heap w);
     self_patterns := self_patterns w |}.

(** The claim of one finding per function that has a mutable literal default,
    in the words of the specification: keyword-only defaults are parameter
    defaults too. *)
Definition claimed_mutable_default_findings (node : ast.AST) : list finding :=
  match node with
  | ast.FunctionDef name args _ _ _ _ =>
      if existsb is_mutable_literal
           (ast.defaults args ++ ast.field_items (ast.kw_defaults args))
      then [mutable_default_finding name] else []
  | _ => []
  end.

(** What a call of [detect] hands back, read in world [w]: the content of the
    list it returns, or the exception it raises. *)
Definition read (w : world) (r : exn + nat) : exn + option (list finding) :=
  match r with
  | inr patterns => inr (heap w !! patterns)
  | inl e => inl e
  end.

Definition returned (r : (exn + nat) * world) : exn + option (list finding) :=
  read (snd r) (fst r).

(** The findings as a function of the code and the file type alone. *)
Definition findings `{Libraries} (code file_type : string)
  : exn + option (list finding) :=
  if decide (file_type = ".py") then
    match ast_parse code with
    | inr tree => inr (Some (python_findings tree))
    | inl (SyntaxError _) => inr (Some [])
    | inl e => inl e
    end
  else inr (Some []).

(** How [detect] ends once a check has raised [e] in world [w]: a
    [SyntaxError] is swallowed, anything else reaches the caller. *)
Definition after_fault (e : exn) (w : world) : (exn + nat) * world :=
  match e with
  | SyntaxError _ => (inr (self_patterns w), w)
  | _ => (inl e, w)
  end.

(** A finding of the given type. *)
Definition has_type (type : string) (f : finding) : bool :=
  bool_decide (f !! "type" = Some type).



(** ** Vocabulary of the further properties *)

(** Number of line breaks in a text. *)
Fixpoint count_newlines (s : string) : Z :=
  match s with
  | EmptyString => 0
  | String c rest => (if Ascii.eqb c "010"%char then 1 else 0) + count_newlines rest
  end.

(** An exception handler without exception type. *)
Definition is_bare_handler (node : ast.AST) : bool :=
  match node with ast.ExceptHandler None _ _ => true | _ => false end.

(** What a node itself adds to the complexity. *)
Definition own_complexity (node : ast.AST) : Z :=
  (if is_branch node then 1 else 0) + operands_less_one node.

(** An [import] or [from ... import] statement. *)
Definition is_import (node : ast.AST) : bool :=
  match node with
  | ast.Import _ | ast.ImportFrom _ _ _ => true
  | _ => false
  end.

(** The paths a directory scan visits: for each extension in turn, the
    matches of its pattern; or the exception of the first extension whose
    pattern [rglob] refuses. *)
Definition matched_files `{FileSystem} (dir_path : string)
    (extensions : option (list string)) : exn + list string :=
  foldr (fun ext rest =>
           match rglob dir_path ("*" +:+ ext), rest with
           | inl e, _ => inl e
           | inr _, inl e => inl e
           | inr file_paths, inr more => inr (file_paths ++ more)
           end)
        (inr [])
        (default [".py"; ".js"; ".ts"; ".java"; ".cpp"] extensions).

(** The entries of a result that the report shows. *)
Definition reported_keys : list string :=
  ["file_path"; "lines_of_code"; "complexity"; "issues"].

(** The head of a report, and the section of a file without issues. *)
Definition report_head (files lines : Z) : string :=
  "# Code Analysis Report" +:+ newline +:+ newline
    +:+ "Total files analyzed: " +:+ pretty files +:+ newline +:+ newline
    +:+ "Total lines of code: " +:+ pretty lines +:+ newline +:+ newline.

Definition plain_section (path lines complexity : string) : string :=
  "## " +:+ path +:+ newline
    +:+ "- Lines: " +:+ lines +:+ newline
    +:+ "- Complexity: " +:+ complexity +:+ newline
    +:+ newline.

(** The line count and the complexity a result carries, with the report's
    defaults. *)
Definition lines_of (result : gmap string value) : Z :=
  match result !! "lines_of_code" with Some (VInt n) => n | _ => 0 end.

Definition complexity_text (result : gmap string value) : string :=
  match result !! "complexity" with Some (VInt c) => pretty c | _ => "N/A" end.

(** Two results that agree on the entries the report shows. *)
Definition same_reported (r1 r2 : gmap string value) : Prop :=
  r1 !! "file_path" = r2 !! "file_path"
  /\ r1 !! "lines_of_code" = r2 !! "lines_of_code"
  /\ r1 !! "complexity" = r2 !! "complexity"
  /\ r1 !! "issues" = r2 !! "issues".

(** The pieces of a text, put together. *)
Definition join (pieces : list string) : string := foldr String.append "" pieces.

(** The result of a directory scan for one file, and its section of the
    report. *)
Definition scanned `{Libraries} `{FileSystem} (self : CodeAnalyzer.t)
    (file_path : string) : gmap string value :=
  <["file_path" := VStr file_path]> (CodeAnalyzer.analyze_file self file_path).

Definition file_section `{Libraries} `{FileSystem} (self : CodeAnalyzer.t)
    (file_path : string) : string :=
  plain_section file_path
    (pretty (lines_of (CodeAnalyzer.analyze_file self file_path)))
    (complexity_text (CodeAnalyzer.analyze_file self file_path)).






(** * Properties *)

(** ** The traversal *)

Lemma nodes_unfold (node : ast.AST) :
  ast.nodes node = node :: concat (map ast.nodes (ast.iter_child_nodes node)).
Proof. apply (ast.tree_fold_unfold (fun node below => node :: concat below)). Qed.

(** The queue discipline: the nodes already queued come out first, in queue
    order, before any of their children. *)
Lemma walk_queue_app (front back : list ast.AST) :
  ast.walk_queue (front ++ back)
  = front ++ ast.walk_queue (back ++ flat_map ast.iter_child_nodes front).
Proof.
  revert back. induction front as [|node front IH]; intros back; simpl.
  - by rewrite app_nil_r.
  - simp walk_queue. rewrite <- app_assoc, IH. by rewrite <- app_assoc.
Qed.

Lemma walk_queue_level (level : list ast.AST) :
  ast.walk_queue level = level ++ ast.walk_queue (flat_map ast.iter_child_nodes level).
Proof. by rewrite <- (app_nil_r level) at 1; rewrite walk_queue_app. Qed.

(** [walk] yields every node of the tree exactly once: it is a rearrangement
    of the depth-first listing. *)
Lemma walk_queue_nodes (todo : list ast.AST) :
  ast.walk_queue todo ≡ₚ flat_map ast.nodes todo.
Proof.
  funelim (ast.walk_queue todo); [done|].
  simp walk_queue. simpl. rewrite nodes_unfold. simpl. constructor.
  match goal with IH : ast.walk_queue _ ≡ₚ _ |- _ => rewrite IH end.
  rewrite flat_map_app, <- flat_map_concat_map. apply Permutation_app_comm.
Qed.

Lemma walk_nodes (node : ast.AST) : ast.walk node ≡ₚ ast.nodes node.
Proof. unfold ast.walk. rewrite walk_queue_nodes. simpl. by rewrite app_nil_r. Qed.


(** ** Sums and counts *)

Lemma foldl_total {A : Type} (step : Z -> A -> Z) (weight : A -> Z) :
  (forall acc x, step acc x = acc + weight x) ->
  forall xs acc, foldl step acc xs = acc + total weight xs.
Proof.
  intros Hstep xs. induction xs as [|x xs IH]; intros acc; simpl; [lia|].
  rewrite IH, Hstep. lia.
Qed.

Lemma total_Permutation {A : Type} (weight : A -> Z) (xs ys : list A) :
  xs ≡ₚ ys -> total weight xs = total weight ys.
Proof. induction 1; simpl; lia. Qed.

Lemma total_indicator {A : Type} (p : A -> bool) (xs : list A) :
  total (fun x => if p x then 1 else 0) xs = len (filter p xs).
Proof.
  unfold len. induction xs as [|x xs IH]; simpl; [done|].
  rewrite filter_cons. destruct (p x); simpl; lia.
Qed.

Lemma sum_omap_total {A : Type} (pick : A -> option Z) (xs : list A) :
  sum (omap pick xs) = total (fun x => default 0 (pick x)) xs.
Proof.
  unfold sum. rewrite (foldl_total Z.add id) by done.
  induction xs as [|x xs IH]; csimpl; [done|].
  destruct (pick x); csimpl; unfold id in *; lia.
Qed.

Lemma count_nodes_walk (p : ast.AST -> bool) (tree : ast.AST) :
  total (fun node => if p node then 1 else 0) (ast.walk tree) = count_nodes p tree.
Proof.
  unfold count_nodes.
  by rewrite (total_Permutation _ _ _ (walk_nodes tree)), total_indicator.
Qed.

Lemma filter_nil_total {A : Type} (p : A -> bool) (weight : A -> Z) (xs : list A) :
  (forall x, p x = false -> weight x = 0) ->
  len (filter p xs) = 0 -> total weight xs = 0.
Proof.
  intros Hw. unfold len. induction xs as [|x xs IH]; simpl; [done|].
  rewrite filter_cons. destruct (p x) eqn:Hp; simpl.
  - lia.
  - intros Hlen. rewrite (Hw x Hp), IH by done. done.
Qed.

(** ** The analysis of a source that parses *)

Section Analysis.
Context `{Libraries}.

Lemma calculate_complexity_total (self : CodeAnalyzer.t) (tree : ast.AST) :
  CodeAnalyzer._calculate_complexity self tree
  = 1 + count_nodes is_branch tree + total operands_less_one (ast.nodes tree).
Proof.
  unfold CodeAnalyzer._calculate_complexity.
  rewrite (foldl_total _ (fun node => (if is_branch node then 1 else 0)
                                       + operands_less_one node)).
  - rewrite (total_Permutation _ _ _ (walk_nodes tree)).
    unfold count_nodes. rewrite <- total_indicator.
    induction (ast.nodes tree) as [|node nodes IH]; simpl; lia.
  - intros acc node. destruct node; simpl; lia.
Qed.

Lemma count_functions_nodes (self : CodeAnalyzer.t) (tree : ast.AST) :
  CodeAnalyzer._count_functions self tree = count_nodes is_function_def tree.
Proof.
  unfold CodeAnalyzer._count_functions.
  rewrite sum_omap_total, <- count_nodes_walk.
  induction (ast.walk tree) as [|node nodes IH]; simpl; [done|].
  rewrite IH. by destruct node.
Qed.

Lemma count_classes_nodes (self : CodeAnalyzer.t) (tree : ast.AST) :
  CodeAnalyzer._count_classes self tree = count_nodes is_class_def tree.
Proof.
  unfold CodeAnalyzer._count_classes.
  rewrite sum_omap_total, <- count_nodes_walk.
  induction (ast.walk tree) as [|node nodes IH]; simpl; [done|].
  rewrite IH. by destruct node.
Qed.

(** The result for a [.py] text that parses: the four entries every result
    starts with, and the four of the Python analysis. *)
Lemma analyze_code_parsed (self : CodeAnalyzer.t) (code : string) (tree : ast.AST) :
  ast_parse code = inr tree ->
  exists results,
    CodeAnalyzer._analyze_code self code ".py" = inr results
    /\ results !! "complexity" = Some (VInt (CodeAnalyzer._calculate_complexity self tree))
    /\ results !! "functions" = Some (VInt (CodeAnalyzer._count_functions self tree))
    /\ results !! "classes" = Some (VInt (CodeAnalyzer._count_classes self tree))
    /\ results !! "imports"
       = Some (VList (VStr <$> CodeAnalyzer._extract_imports self tree))
    /\ results !! "syntax_error" = None.
Proof.
  intros Hparse. eexists.
  unfold CodeAnalyzer._analyze_code, CodeAnalyzer._analyze_python.
  rewrite Hparse. rewrite decide_True by done. split; [reflexivity|].
  unfold CodeAnalyzer.update.
  generalize (CodeAnalyzer._calculate_complexity self tree)
             (CodeAnalyzer._count_functions self tree)
             (CodeAnalyzer._count_classes self tree)
             (CodeAnalyzer._extract_imports self tree)
             (split_newline code).
  intros. repeat split; vm_compute; reflexivity.
Qed.

End Analysis.

(** A count over a tree is the node's own contribution plus the counts over
    the subtrees of its children: nested nodes count like top-level ones. *)
Lemma count_nodes_children (p : ast.AST -> bool) (node : ast.AST) :
  count_nodes p node
  = (if p node then 1 else 0) + total (count_nodes p) (ast.iter_child_nodes node).
Proof.
  unfold count_nodes. rewrite nodes_unfold, filter_cons.
  assert (len (filter p (concat (map ast.nodes (ast.iter_child_nodes node))))
          = total (fun child => len (filter p (ast.nodes child)))
                  (ast.iter_child_nodes node)) as <-.
  { unfold len. induction (ast.iter_child_nodes node) as [|child children IH];
      simpl; [done|].
    rewrite filter_app, length_app. lia. }
  unfold len. destruct (p node); simpl; lia.
Qed.

Lemma total_operands_nonneg (nodes : list ast.AST) :
  forallb (fun node => match node with
                       | ast.BoolOp _ values => (2 <=? len values)
                       | _ => true
                       end) nodes = true ->
  0 <= total operands_less_one nodes.
Proof.
  induction nodes as [|node nodes IH]; simpl; [lia|].
  intros [Hnode Hnodes]%andb_prop. specialize (IH Hnodes).
  destruct node; simpl; lia.
Qed.

(** C1. For a source that parses, the complexity the analysis reports is 1,
    plus the number of [if], [while], [for] and exception-handler nodes
    anywhere in the tree, plus N - 1 for every boolean operation with N
    operands. It is at least 1 (every boolean operation of a parsed tree has
    two operands or more), and exactly 1 when the tree has no branch node and
    no boolean operation. *)
Theorem complexity_counts_branches {lib : Libraries} (self : CodeAnalyzer.t)
    (code : string) (tree : ast.AST) :
  ast_parse code = inr tree ->
  let complexity :=
    1 + count_nodes is_branch tree + total operands_less_one (ast.nodes tree) in
  (exists results,
     CodeAnalyzer._analyze_code self code ".py" = inr results
     /\ results !! "complexity" = Some (VInt complexity))
  /\ (two_operands tree = true -> 1 <= complexity)
  /\ (count_nodes is_branch tree = 0 -> count_nodes is_bool_op tree = 0 ->
      complexity = 1).
Proof.
  intros Hparse complexity. split; [|split].
  - destruct (analyze_code_parsed self code tree Hparse)
      as (results & Hresults & Hcomplexity & _).
    exists results. split; [done|].
    by rewrite Hcomplexity, calculate_complexity_total.
  - intros Hops%total_operands_nonneg.
    assert (0 <= count_nodes is_branch tree) by apply Nat2Z.is_nonneg.
    unfold complexity. lia.
  - intros Hbranch Hbool. unfold complexity. rewrite Hbranch.
    rewrite (filter_nil_total is_bool_op); [lia| |exact Hbool].
    by intros [].
Qed.

Lemma complexity_counts_branches_witness :
  (@ast_parse Samples.libraries Samples.branches_source = inr Samples.branches_tree
   /\ two_operands Samples.branches_tree = true
   /\ (exists results,
         @CodeAnalyzer._analyze_code Samples.libraries Samples.new_analyzer
           Samples.branches_source ".py" = inr results
         /\ results !! "complexity" = Some (VInt 4))
   /\ 1 <= 4)
  /\ (@ast_parse Samples.libraries Samples.clean_source = inr Samples.clean_tree
      /\ count_nodes is_branch Samples.clean_tree = 0
      /\ count_nodes is_bool_op Samples.clean_tree = 0
      /\ exists results,
           @CodeAnalyzer._analyze_code Samples.libraries Samples.new_analyzer
             Samples.clean_source ".py" = inr results
           /\ results !! "complexity" = Some (VInt 1)).
Proof.
  split.
  - destruct (@complexity_counts_branches Samples.libraries Samples.new_analyzer
                Samples.branches_source Samples.branches_tree eq_refl)
      as (Hresults & Hbound & _).
    split; [reflexivity|]. split; [reflexivity|].
    split; [exact Hresults|exact (Hbound eq_refl)].
  - destruct (@complexity_counts_branches Samples.libraries Samples.new_analyzer
                Samples.clean_source Samples.clean_tree eq_refl)
      as (Hresults & _ & Hone).
    split; [reflexivity|]. split; [reflexivity|]. split; [reflexivity|].
    exact Hresults.
Defined.

(** C8. For a source that parses, the reported function count and class
    count are the numbers of [FunctionDef] and [ClassDef] nodes anywhere in
    the tree, nested definitions included. *)
Theorem counts_include_nested_definitions {lib : Libraries} (self : CodeAnalyzer.t)
    (code : string) (tree : ast.AST) :
  ast_parse code = inr tree ->
  exists results,
    CodeAnalyzer._analyze_code self code ".py" = inr results
    /\ results !! "functions" = Some (VInt (count_nodes is_function_def tree))
    /\ results !! "classes" = Some (VInt (count_nodes is_class_def tree)).
Proof.
  intros Hparse.
  destruct (analyze_code_parsed self code tree Hparse)
    as (results & Hresults & _ & Hfunctions & Hclasses & _).
  exists results.
  by rewrite Hfunctions, Hclasses, count_functions_nodes, count_classes_nodes.
Qed.

Lemma counts_include_nested_definitions_witness :
  @ast_parse Samples.libraries Samples.nested_defs_source = inr Samples.nested_defs_tree
  /\ exists results,
       @CodeAnalyzer._analyze_code Samples.libraries Samples.new_analyzer
         Samples.nested_defs_source ".py" = inr results
       /\ results !! "functions" = Some (VInt 2)
       /\ results !! "classes" = Some (VInt 1).
Proof.
  split; [reflexivity|].
  exact (@counts_include_nested_definitions Samples.libraries Samples.new_analyzer
           Samples.nested_defs_source Samples.nested_defs_tree eq_refl).
Defined.

(** ** Imports *)

Lemma foldl_append {A B : Type} (entry : A -> B) (xs : list A) (acc : list B) :
  foldl (fun acc x => acc ++ [entry x]) acc xs = acc ++ map entry xs.
Proof.
  revert acc. induction xs as [|x xs IH]; intros acc; simpl.
  - by rewrite app_nil_r.
  - by rewrite IH, <- app_assoc.
Qed.

Lemma extract_imports_walk (self : CodeAnalyzer.t) (tree : ast.AST) :
  CodeAnalyzer._extract_imports self tree = flat_map import_entries (ast.walk tree).
Proof.
  unfold CodeAnalyzer._extract_imports.
  match goal with
  | |- foldl ?step [] _ = _ =>
      assert (Hstep : forall nodes imports,
                foldl step imports nodes = imports ++ flat_map import_entries nodes)
  end.
  { induction nodes as [|node nodes IH]; intros imports; simpl.
    - by rewrite app_nil_r.
    - rewrite IH, app_assoc. f_equal.
      destruct node as [| | | | | |names|[module|] names level| | | | | | | | | | |];
        simpl; rewrite ?foldl_append, ?app_nil_r; reflexivity. }
  by rewrite Hstep.
Qed.

(** The statements of a module body are visited first and in source order,
    before anything nested in them. *)
Lemma walk_module (body type_ignores : list ast.AST) :
  ast.walk (ast.Module body type_ignores)
  = ast.Module body type_ignores :: body
      ++ ast.walk_queue (type_ignores ++ flat_map ast.iter_child_nodes body).
Proof. unfold ast.walk. simp walk_queue. simpl. by rewrite walk_queue_app. Qed.

Lemma flat_map_constant_nil (names : list ast.alias) :
  flat_map import_entries (map ast.Alias names) = [].
Proof. induction names; simpl; auto. Qed.

Lemma walk_queue_aliases (names : list ast.alias) :
  ast.walk_queue (map ast.Alias names) = map ast.Alias names.
Proof.
  rewrite walk_queue_level.
  assert (flat_map ast.iter_child_nodes (map ast.Alias names) = []) as ->.
  { induction names; simpl; auto. }
  simp walk_queue. by rewrite app_nil_r.
Qed.

Lemma single_imports_children (body : list ast.AST) :
  forallb single_import body = true ->
  exists names, flat_map ast.iter_child_nodes body = map ast.Alias names
                /\ length (flat_map import_entries body) = length body.
Proof.
  induction body as [|node body IH]; simpl.
  - by exists [].
  - intros [Hnode Hbody]%andb_prop. destruct (IH Hbody) as (names & Hnames & Hlen).
    rewrite Hnames, length_app, Hlen.
    destruct node as [| | | | | |[|a []]|[module|] [|a []] level| | | | | | | | | | |];
      try discriminate; by exists (a :: names).
Qed.

(** C2, amended. For a source that parses, the import list has one entry per
    imported name, in the order [ast.walk] visits the import statements
    (breadth-first: the statements of the module body in source order, then
    the nested ones): X for [import X], M.X for [from M import X], and the
    name behind a dot, .X, when the module is absent. A file of N
    single-name import statements yields exactly N entries, in source
    order. *)
Theorem imports_in_walk_order {lib : Libraries} (self : CodeAnalyzer.t)
    (code : string) (tree : ast.AST) :
  ast_parse code = inr tree ->
  (exists results,
     CodeAnalyzer._analyze_code self code ".py" = inr results
     /\ results !! "imports"
        = Some (VList (VStr <$> flat_map import_entries (ast.walk tree))))
  /\ flat_map import_entries (ast.walk tree) ≡ₚ flat_map import_entries (ast.nodes tree)
  /\ (forall body type_ignores,
        tree = ast.Module body type_ignores ->
        exists nested,
          flat_map import_entries (ast.walk tree)
          = flat_map import_entries body ++ nested)
  /\ (forall body,
        tree = ast.Module body [] ->
        forallb single_import body = true ->
        flat_map import_entries (ast.walk tree) = flat_map import_entries body
        /\ length (flat_map import_entries (ast.walk tree)) = length body).
Proof.
  intros Hparse. repeat split.
  - destruct (analyze_code_parsed self code tree Hparse)
      as (results & Hresults & _ & _ & _ & Himports & _).
    exists results. by rewrite Himports, extract_imports_walk.
  - by rewrite (walk_nodes tree).
  - intros body type_ignores ->. rewrite walk_module. simpl.
    rewrite flat_map_app. eauto.
  - subst tree. rewrite walk_module. simpl.
    destruct (single_imports_children body) as (names & -> & _); [done|].
    by rewrite walk_queue_aliases, flat_map_app, (flat_map_constant_nil names), app_nil_r.
  - subst tree. rewrite walk_module. simpl.
    destruct (single_imports_children body) as (names & -> & Hlen); [done|].
    by rewrite walk_queue_aliases, flat_map_app, (flat_map_constant_nil names), app_nil_r.
Qed.

Lemma imports_in_walk_order_witness :
  @ast_parse Samples.libraries Samples.flat_imports_source = inr Samples.flat_imports_tree
  /\ (exists results,
        @CodeAnalyzer._analyze_code Samples.libraries Samples.new_analyzer
          Samples.flat_imports_source ".py" = inr results
        /\ results !! "imports"
           = Some (VList [VStr "os"; VStr "os.path"; VStr ".sibling"]))
  /\ forallb single_import (ast.iter_child_nodes Samples.flat_imports_tree) = true
  /\ length (flat_map import_entries (ast.walk Samples.flat_imports_tree)) = 3%nat.
Proof.
  destruct (@imports_in_walk_order Samples.libraries Samples.new_analyzer
              Samples.flat_imports_source Samples.flat_imports_tree eq_refl)
    as (Hresults & _ & _ & Hflat).
  split; [reflexivity|]. split; [exact Hresults|]. split; [reflexivity|].
  exact (proj2 (Hflat _ eq_refl eq_refl)).
Defined.

(** C2 as stated fails: [from . import sibling] is listed as [.sibling], not
    as the name alone, and an import nested in a function comes after a
    later module-level import. *)
Lemma imports_claim_counterexample :
  (@ast_parse Samples.libraries Samples.flat_imports_source = inr Samples.flat_imports_tree
   /\ CodeAnalyzer._extract_imports Samples.new_analyzer Samples.flat_imports_tree
      = ["os"; "os.path"; ".sibling"]
   /\ claimed_imports Samples.flat_imports_tree = ["os"; "os.path"; "sibling"])
  /\ (@ast_parse Samples.libraries Samples.nested_import_source
        = inr Samples.nested_import_tree
      /\ CodeAnalyzer._extract_imports Samples.new_analyzer Samples.nested_import_tree
         = ["b"; "a"]
      /\ claimed_imports Samples.nested_import_tree = ["a"; "b"]).
Proof. repeat split; reflexivity. Qed.

(** ** The detector's world *)

Lemma appended_nil (w : world) : appended w [] = w.
Proof.
  destruct w as [heap patterns]. unfold appended; simpl. f_equal.
  apply list_alter_id. intros xs. apply app_nil_r.
Qed.

Lemma appended_app (w : world) (first second : list finding) :
  appended (appended w first) second = appended w (first ++ second).
Proof.
  unfold appended; simpl. f_equal. rewrite list_alter_alter_eq.
  apply list_alter_ext; [|done]. intros xs _. simpl. by rewrite app_assoc.
Qed.

Lemma for_each_appends {A : Type} (body : A -> M unit) (entries : A -> list finding) :
  (forall x w, body x w = (inr tt, appended w (entries x))) ->
  forall xs w, for_each xs body w = (inr tt, appended w (flat_map entries xs)).
Proof.
  intros Hbody xs. induction xs as [|x xs IH]; intros w; simpl.
  - by rewrite appended_nil.
  - unfold mbind, M_bind. by rewrite Hbody, IH, appended_app.
Qed.

Lemma append_appended (x : finding) (w : world) :
  (patterns ← get_self_patterns; append patterns x) w = (inr tt, appended w [x]).
Proof. reflexivity. Qed.

Lemma check_bare_except_appends (tree : ast.AST) (w : world) :
  BugPatternDetector._check_bare_except tree w
  = (inr tt, appended w (flat_map bare_except_findings (ast.walk tree))).
Proof.
  apply for_each_appends. intros node w'.
  destruct node as [| | | | | | | | | | | | | | |[type|] name body| | |];
    try (by rewrite appended_nil).
  apply append_appended.
Qed.

Lemma check_mutable_defaults_appends (tree : ast.AST) (w : world) :
  BugPatternDetector._check_mutable_defaults tree w
  = (inr tt, appended w (flat_map mutable_default_findings (ast.walk tree))).
Proof.
  apply for_each_appends. intros node w'.
  destruct node; try (by rewrite appended_nil).
  simpl.
  rewrite (for_each_appends _
             (fun default => if is_mutable_literal default
                             then [mutable_default_finding name] else [])).
  - f_equal. f_equal.
    induction (ast.defaults args) as [|default defaults IH]; simpl; [done|].
    rewrite filter_cons, IH. by destruct (is_mutable_literal default).
  - intros default w''. destruct default; try (by rewrite appended_nil);
      apply append_appended.
Qed.

Lemma lookup_started (w : world) (new : list finding) :
  heap (appended (started w) new) !! length (heap w) = Some new.
Proof.
  unfold appended, started; simpl.
  rewrite list_lookup_alter_eq, lookup_app_r, Nat.sub_diag by lia. done.
Qed.

(** The list objects that existed before a call stay as they were. *)
Lemma lookup_before_started (w : world) (new : list finding) (l : nat) :
  (l < length (heap w))%nat ->
  heap (appended (started w) new) !! l = heap w !! l.
Proof.
  intros Hl. unfold appended, started; simpl.
  rewrite list_lookup_alter_ne, lookup_app_l by lia. done.
Qed.

(** ** Runs of [detect] *)

Section Detect.
Context `{Libraries}.

Lemma detect_run (self : BugPatternDetector.methods) (code file_type : string)
    (w : world) :
  BugPatternDetector.detect self code file_type w
  = match (if decide (file_type = ".py")
           then BugPatternDetector._detect_python_patterns self code
           else mret tt) (started w) with
    | (inr _, w') => (inr (self_patterns w'), w')
    | (inl e, w') => (inl e, w')
    end.
Proof. reflexivity. Qed.

Lemma detect_other_type (self : BugPatternDetector.methods) (code file_type : string)
    (w : world) :
  file_type <> ".py" ->
  BugPatternDetector.detect self code file_type w = (inr (length (heap w)), started w).
Proof. intros Hother. rewrite detect_run. by rewrite decide_False. Qed.

Lemma detect_unparsed (self : BugPatternDetector.methods) (code : string)
    (e : exn) (w : world) :
  ast_parse code = inl e ->
  BugPatternDetector.detect self code ".py" w = after_fault e (started w).
Proof.
  intros Hparse. rewrite detect_run. rewrite decide_True by done.
  unfold BugPatternDetector._detect_python_patterns, try_except, mbind, M_bind, call.
  rewrite Hparse. by destruct e.
Qed.

(** With a tree at hand, [detect] ends as the three checks, run one after the
    other, end. *)
Lemma detect_parsed (self : BugPatternDetector.methods) (code : string)
    (tree : ast.AST) (w : world) :
  ast_parse code = inr tree ->
  BugPatternDetector.detect self code ".py" w
  = match (BugPatternDetector.check_bare_except self tree;;
           BugPatternDetector.check_mutable_defaults self tree;;
           BugPatternDetector.check_unused_variables self tree : M unit) (started w) with
    | (inr _, w') => (inr (self_patterns w'), w')
    | (inl e, w') => after_fault e w'
    end.
Proof.
  intros Hparse. rewrite detect_run. rewrite decide_True by done.
  unfold BugPatternDetector._detect_python_patterns, try_except.
  unfold mbind at 1, M_bind at 1, call. rewrite Hparse.
  match goal with |- context [mbind ?k ?m (started w)] =>
    destruct (mbind k m (started w)) as [[e|[]] w'] end; [by destruct e|done].
Qed.

Lemma detect_base_parsed (code : string) (tree : ast.AST) (w : world) :
  ast_parse code = inr tree ->
  BugPatternDetector.detect BugPatternDetector.base code ".py" w
  = (inr (length (heap w)), appended (started w) (python_findings tree)).
Proof.
  intros Hparse. rewrite (detect_parsed _ _ tree) by done.
  unfold mbind, M_bind; simpl.
  rewrite check_bare_except_appends, check_mutable_defaults_appends.
  unfold BugPatternDetector._check_unused_variables, mret, M_ret.
  by rewrite appended_app.
Qed.

(** What [detect] returns depends on the code and the file type only. *)
Lemma detect_returns (code file_type : string) (w : world) :
  returned (BugPatternDetector.detect BugPatternDetector.base code file_type w)
  = findings code file_type.
Proof.
  unfold findings, returned. destruct (decide (file_type = ".py")) as [->|Hother].
  - destruct (ast_parse code) as [e|tree] eqn:Hparse.
    + rewrite (detect_unparsed _ _ e) by done.
      destruct e; simpl; [|done].
      by rewrite list_lookup_middle.
    + rewrite (detect_base_parsed _ tree) by done. cbn [fst snd read].
      by rewrite lookup_started.
  - rewrite detect_other_type by done. simpl.
    by rewrite list_lookup_middle.
Qed.

End Detect.

(** ** Mutable default arguments *)

Lemma filter_type_bare_except (type : string) (nodes : list ast.AST) :
  type <> "Bare Except Clause" ->
  filter (has_type type) (flat_map bare_except_findings nodes) = [].
Proof.
  intros Htype. induction nodes as [|node nodes IH]; simpl; [done|].
  rewrite filter_app, IH, app_nil_r.
  destruct node as [| | | | | | | | | | | | | | |[?|] ? ?| | |]; try done.
  simpl. rewrite filter_cons, decide_False; [done|].
  unfold has_type. rewrite bool_decide_eq_false_2; [by intros []|].
  intros [= Heq]. by apply Htype.
Qed.

Lemma filter_type_mutable_default (nodes : list ast.AST) :
  filter (has_type "Mutable Default Argument") (flat_map mutable_default_findings nodes)
  = flat_map mutable_default_findings nodes.
Proof.
  induction nodes as [|node nodes IH]; simpl; [done|].
  rewrite filter_app, IH. f_equal.
  destruct node; try done. simpl.
  induction (length _) as [|n IHn]; simpl; [done|].
  by rewrite filter_cons, IHn.
Qed.

Lemma python_findings_mutable_defaults (tree : ast.AST) :
  filter (has_type "Mutable Default Argument") (python_findings tree)
  = flat_map mutable_default_findings (ast.walk tree).
Proof.
  unfold python_findings.
  by rewrite filter_app, filter_type_bare_except, filter_type_mutable_default.
Qed.

(** C6, amended. For a source that parses, every function definition gives
    one "Mutable Default Argument" finding per list, dict or set literal among
    the defaults of its positional parameters ([args.defaults]), each of
    severity HIGH and naming the function: exactly one when it has one such
    default, none when it has none. These are all the findings of that type,
    one function after the other in [ast.walk] order. *)
Theorem mutable_default_finding_per_default {lib : Libraries} (code : string)
    (tree : ast.AST) (w : world) :
  ast_parse code = inr tree ->
  (exists found,
     returned (BugPatternDetector.detect BugPatternDetector.base code ".py" w)
     = inr (Some found)
     /\ filter (has_type "Mutable Default Argument") found
        = flat_map mutable_default_findings (ast.walk tree))
  /\ flat_map mutable_default_findings (ast.walk tree)
     ≡ₚ flat_map mutable_default_findings (ast.nodes tree)
  /\ (forall name args body decorator_list returns type_params,
        mutable_default_findings
          (ast.FunctionDef name args body decorator_list returns type_params)
        = replicate (length (filter is_mutable_literal (ast.defaults args)))
                    (mutable_default_finding name))
  /\ (forall name,
        mutable_default_finding name !! "type" = Some "Mutable Default Argument"
        /\ mutable_default_finding name !! "severity" = Some "HIGH"
        /\ mutable_default_finding name !! "function" = Some name).
Proof.
  intros Hparse. split; [|split; [|split]].
  - exists (python_findings tree). split.
    + rewrite detect_returns. unfold findings.
      by rewrite decide_True, Hparse.
    + apply python_findings_mutable_defaults.
  - by rewrite (walk_nodes tree).
  - reflexivity.
  - intros name. repeat split; vm_compute; reflexivity.
Qed.

Lemma mutable_default_finding_per_default_witness :
  @ast_parse Samples.libraries Samples.one_default_source = inr Samples.one_default_tree
  /\ exists found,
       returned (@BugPatternDetector.detect Samples.libraries BugPatternDetector.base
                   Samples.one_default_source ".py" Samples.new_detector)
       = inr (Some found)
       /\ filter (has_type "Mutable Default Argument") found
          = [mutable_default_finding "g"].
Proof.
  split; [reflexivity|].
  exact (proj1 (@mutable_default_finding_per_default Samples.libraries
                  Samples.one_default_source Samples.one_default_tree
                  Samples.new_detector eq_refl)).
Defined.

(** C6 as stated fails: a function with two mutable literal defaults gets two
    findings, not one, and a function whose mutable literal is the default of
    a keyword-only parameter gets none. *)
Lemma one_finding_per_function_counterexample :
  (@ast_parse Samples.libraries Samples.two_defaults_source
     = inr Samples.two_defaults_tree
   /\ returned (@BugPatternDetector.detect Samples.libraries BugPatternDetector.base
                  Samples.two_defaults_source ".py" Samples.new_detector)
      = inr (Some [mutable_default_finding "f"; mutable_default_finding "f"])
   /\ flat_map claimed_mutable_default_findings (ast.nodes Samples.two_defaults_tree)
      = [mutable_default_finding "f"])
  /\ (@ast_parse Samples.libraries Samples.keyword_only_source
        = inr Samples.keyword_only_tree
      /\ returned (@BugPatternDetector.detect Samples.libraries BugPatternDetector.base
                     Samples.keyword_only_source ".py" Samples.new_detector)
         = inr (Some [])
      /\ flat_map claimed_mutable_default_findings (ast.nodes Samples.keyword_only_tree)
         = [mutable_default_finding "h"]).
Proof. repeat split; vm_compute; reflexivity. Qed.









(** ** Faults, unsupported file types and syntax errors *)

(** C4, amended. The three checks run inside one [try] block that catches
    [SyntaxError] only, so a check that faults ends the run: the checks after
    it are not executed (the world stays as the faulting check left it), a
    [SyntaxError] is swallowed and any other fault reaches the caller of
    [detect]. When no check faults, every check runs in turn; the three
    checks of the class itself never fault, and their findings all reach the
    returned list. *)
Theorem fault_ends_the_run {lib : Libraries} (self : BugPatternDetector.methods)
    (code : string) (tree : ast.AST) (w : world) :
  ast_parse code = inr tree ->
  (forall e w1,
     BugPatternDetector.check_bare_except self tree (started w) = (inl e, w1) ->
     BugPatternDetector.detect self code ".py" w = after_fault e w1)
  /\ (forall w1 e w2,
        BugPatternDetector.check_bare_except self tree (started w) = (inr tt, w1) ->
        BugPatternDetector.check_mutable_defaults self tree w1 = (inl e, w2) ->
        BugPatternDetector.detect self code ".py" w = after_fault e w2)
  /\ (forall w1 w2 e w3,
        BugPatternDetector.check_bare_except self tree (started w) = (inr tt, w1) ->
        BugPatternDetector.check_mutable_defaults self tree w1 = (inr tt, w2) ->
        BugPatternDetector.check_unused_variables self tree w2 = (inl e, w3) ->
        BugPatternDetector.detect self code ".py" w = after_fault e w3)
  /\ (forall w1 w2 w3,
        BugPatternDetector.check_bare_except self tree (started w) = (inr tt, w1) ->
        BugPatternDetector.check_mutable_defaults self tree w1 = (inr tt, w2) ->
        BugPatternDetector.check_unused_variables self tree w2 = (inr tt, w3) ->
        BugPatternDetector.detect self code ".py" w = (inr (self_patterns w3), w3))
  /\ BugPatternDetector.detect BugPatternDetector.base code ".py" w
     = (inr (length (heap w)), appended (started w) (python_findings tree)).
Proof.
  intros Hparse. repeat split.
  - intros e w1 H1. rewrite (detect_parsed _ _ tree) by done.
    unfold mbind, M_bind. by rewrite H1.
  - intros w1 e w2 H1 H2. rewrite (detect_parsed _ _ tree) by done.
    unfold mbind, M_bind. by rewrite H1, H2.
  - intros w1 w2 e w3 H1 H2 H3. rewrite (detect_parsed _ _ tree) by done.
    unfold mbind, M_bind. by rewrite H1, H2, H3.
  - intros w1 w2 w3 H1 H2 H3. rewrite (detect_parsed _ _ tree) by done.
    unfold mbind, M_bind. by rewrite H1, H2, H3.
  - by apply detect_base_parsed.
Qed.

Lemma fault_ends_the_run_witness :
  @ast_parse Samples.libraries Samples.one_default_source = inr Samples.one_default_tree
  /\ @BugPatternDetector.detect Samples.libraries Samples.faulty
       Samples.one_default_source ".py" Samples.new_detector
     = (inl (Exception "RuntimeError" "rule failed"), started Samples.new_detector).
Proof.
  split; [reflexivity|].
  exact (proj1 (@fault_ends_the_run Samples.libraries Samples.faulty
                  Samples.one_default_source Samples.one_default_tree
                  Samples.new_detector eq_refl)
           (Exception "RuntimeError" "rule failed") (started Samples.new_detector)
           eq_refl).
Defined.

(** C4 as stated fails: with the first check replaced by one that always
    faults, the mutable-default finding the unchanged class reports for the
    same source is not produced, and the fault comes out of [detect]. *)
Lemma rule_isolation_counterexample :
  @ast_parse Samples.libraries Samples.one_default_source = inr Samples.one_default_tree
  /\ returned (@BugPatternDetector.detect Samples.libraries BugPatternDetector.base
                 Samples.one_default_source ".py" Samples.new_detector)
     = inr (Some [mutable_default_finding "g"])
  /\ @BugPatternDetector.detect Samples.libraries Samples.faulty
       Samples.one_default_source ".py" Samples.new_detector
     = (inl (Exception "RuntimeError" "rule failed"),
        {| heap := [[]; []]; self_patterns := 1 |}).
Proof. repeat split; vm_compute; reflexivity. Qed.

(** C5, amended. For a file type other than [.py] the detector returns an
    empty list, the same value as for a clean Python file, and for an
    extension other than [.py], [.js] and [.ts] the analyzer returns only the
    line count, the file type, an empty issue list and an empty metrics dict;
    neither carries a "not analyzed" marker. *)
Theorem other_file_types_give_plain_results {lib : Libraries}
    (analyzer : CodeAnalyzer.t) (self : BugPatternDetector.methods)
    (code file_type : string) (w : world) :
  file_type <> ".py" ->
  returned (BugPatternDetector.detect self code file_type w) = inr (Some [])
  /\ (file_type ∉ [".js"; ".ts"] ->
      CodeAnalyzer._analyze_code analyzer code file_type
      = inr {[ "lines_of_code" := VInt (len (split_newline code));
               "file_type" := VStr file_type;
               "issues" := VList [];
               "metrics" := VDict [] ]}).
Proof.
  intros Hother. split.
  - rewrite detect_other_type by done. unfold returned; simpl.
    by rewrite list_lookup_middle.
  - intros Hscript. unfold CodeAnalyzer._analyze_code.
    by rewrite decide_False, decide_False.
Qed.

Lemma other_file_types_give_plain_results_witness :
  ".java" <> ".py"
  /\ (".java" ∉ [".js"; ".ts"])
  /\ returned (@BugPatternDetector.detect Samples.libraries BugPatternDetector.base
                 Samples.script_source ".java" Samples.new_detector)
     = inr (Some [])
  /\ @CodeAnalyzer._analyze_code Samples.libraries Samples.new_analyzer
       Samples.script_source ".java"
     = inr {[ "lines_of_code" := VInt (len (split_newline Samples.script_source));
              "file_type" := VStr ".java";
              "issues" := VList [];
              "metrics" := VDict [] ]}.
Proof.
  assert (Hother : ".java" <> ".py") by discriminate.
  assert (Hscript : ".java" ∉ [".js"; ".ts"])
    by (apply (bool_decide_unpack _); reflexivity).
  split; [exact Hother|]. split; [exact Hscript|].
  destruct (@other_file_types_give_plain_results Samples.libraries
              Samples.new_analyzer BugPatternDetector.base Samples.script_source
              ".java" Samples.new_detector Hother) as [Hfound Hresults].
  split; [exact Hfound|exact (Hresults Hscript)].
Defined.

(** C5 as stated fails: the detector's answer for a script it does not
    analyze is the empty list it also gives for a clean Python file, and the
    analyzer's answer for a [.java] file has the four starting entries and
    nothing else. *)
Lemma not_analyzed_marker_counterexample :
  returned (@BugPatternDetector.detect Samples.libraries BugPatternDetector.base
              Samples.script_source ".js" Samples.new_detector)
  = inr (Some [])
  /\ returned (@BugPatternDetector.detect Samples.libraries BugPatternDetector.base
                 Samples.clean_source ".py" Samples.new_detector)
     = inr (Some [])
  /\ @CodeAnalyzer._analyze_code Samples.libraries Samples.new_analyzer
       Samples.script_source ".java"
     = inr {[ "lines_of_code" := VInt 1;
              "file_type" := VStr ".java";
              "issues" := VList [];
              "metrics" := VDict [] ]}.
Proof. repeat split; vm_compute; reflexivity. Qed.

(** C7, amended. For a [.py] source that the parser rejects, what happens
    depends on the exception [ast.parse] raises. When it is a [SyntaxError],
    the analysis returns a result with the message under [syntax_error] and
    none of the entries [complexity], [functions], [classes] and [imports],
    and the detector returns an empty list; neither raises. When it is of any
    other class, both the analysis and the detector raise it: the only clause
    of either [try] is [except SyntaxError]. *)
Theorem parse_failure_is_reported_or_raised {lib : Libraries}
    (analyzer : CodeAnalyzer.t) (self : BugPatternDetector.methods)
    (code : string) (e : exn) (w : world) :
  ast_parse code = inl e ->
  match e with
  | SyntaxError message =>
      (exists results,
         CodeAnalyzer._analyze_code analyzer code ".py" = inr results
         /\ results !! "syntax_error" = Some (VStr message)
         /\ results !! "complexity" = None
         /\ results !! "functions" = None
         /\ results !! "classes" = None
         /\ results !! "imports" = None)
      /\ returned (BugPatternDetector.detect self code ".py" w) = inr (Some [])
  | Exception _ _ =>
      CodeAnalyzer._analyze_code analyzer code ".py" = inl e
      /\ BugPatternDetector.detect self code ".py" w = (inl e, started w)
      /\ returned (BugPatternDetector.detect self code ".py" w) = inl e
  end.
Proof.
  intros Hparse. destruct e as [message|class message].
  - split.
    + eexists. unfold CodeAnalyzer._analyze_code, CodeAnalyzer._analyze_python.
      rewrite Hparse, decide_True by done. split; [reflexivity|].
      unfold CodeAnalyzer.update. generalize (split_newline code). intros.
      repeat split; vm_compute; reflexivity.
    + rewrite (detect_unparsed _ _ (SyntaxError message)) by done.
      unfold returned; simpl. by rewrite list_lookup_middle.
  - split.
    + unfold CodeAnalyzer._analyze_code, CodeAnalyzer._analyze_python.
      by rewrite Hparse, decide_True.
    + by rewrite (detect_unparsed _ _ (Exception class message)).
Qed.

Lemma parse_failure_is_reported_or_raised_witness :
  (@ast_parse Samples.libraries Samples.broken_source
   = inl (SyntaxError Samples.broken_message)
   /\ (exists results,
         @CodeAnalyzer._analyze_code Samples.libraries Samples.new_analyzer
           Samples.broken_source ".py" = inr results
         /\ results !! "syntax_error" = Some (VStr Samples.broken_message)
         /\ results !! "complexity" = None
         /\ results !! "functions" = None
         /\ results !! "classes" = None
         /\ results !! "imports" = None)
   /\ returned (@BugPatternDetector.detect Samples.libraries BugPatternDetector.base
                  Samples.broken_source ".py" Samples.new_detector)
      = inr (Some []))
  /\ (@ast_parse MoreSamples.libraries MoreSamples.nul_source
      = inl (Exception "ValueError" MoreSamples.nul_message)
      /\ @CodeAnalyzer._analyze_code MoreSamples.libraries Samples.new_analyzer
           MoreSamples.nul_source ".py"
         = inl (Exception "ValueError" MoreSamples.nul_message)
      /\ @BugPatternDetector.detect MoreSamples.libraries BugPatternDetector.base
           MoreSamples.nul_source ".py" Samples.new_detector
         = (inl (Exception "ValueError" MoreSamples.nul_message),
            started Samples.new_detector)
      /\ returned (@BugPatternDetector.detect MoreSamples.libraries
                     BugPatternDetector.base MoreSamples.nul_source ".py"
                     Samples.new_detector)
         = inl (Exception "ValueError" MoreSamples.nul_message)).
Proof.
  split.
  - split; [reflexivity|].
    exact (@parse_failure_is_reported_or_raised Samples.libraries Samples.new_analyzer
             BugPatternDetector.base Samples.broken_source
             (SyntaxError Samples.broken_message) Samples.new_detector eq_refl).
  - split; [reflexivity|].
    exact (@parse_failure_is_reported_or_raised MoreSamples.libraries
             Samples.new_analyzer BugPatternDetector.base MoreSamples.nul_source
             (Exception "ValueError" MoreSamples.nul_message) Samples.new_detector
             eq_refl).
Defined.

(** C7 as stated fails: a text with a NUL byte does not parse, [ast.parse]
    raises a [ValueError] for it, and the exception leaves both the analysis
    and the detector; no [syntax_error] entry is made and no list is
    returned. *)
Lemma parse_failure_propagates_counterexample :
  @ast_parse MoreSamples.libraries MoreSamples.nul_source
  = inl (Exception "ValueError" MoreSamples.nul_message)
  /\ @CodeAnalyzer._analyze_code MoreSamples.libraries Samples.new_analyzer
       MoreSamples.nul_source ".py"
     = inl (Exception "ValueError" MoreSamples.nul_message)
  /\ returned (@BugPatternDetector.detect MoreSamples.libraries BugPatternDetector.base
                 MoreSamples.nul_source ".py" Samples.new_detector)
     = inl (Exception "ValueError" MoreSamples.nul_message).
Proof. repeat split; vm_compute; reflexivity. Qed.

(** ** Determinism *)

Lemma detect_base_cases {lib : Libraries} (code file_type : string) (w : world) :
  (exists found,
     BugPatternDetector.detect BugPatternDetector.base code file_type w
     = (inr (length (heap w)), appended (started w) found))
  \/ (exists e,
        BugPatternDetector.detect BugPatternDetector.base code file_type w
        = (inl e, started w)).
Proof.
  destruct (decide (file_type = ".py")) as [->|Hother].
  - destruct (ast_parse code) as [e|tree] eqn:Hparse.
    + rewrite (detect_unparsed _ _ e) by done. destruct e.
      * left. exists []. by rewrite appended_nil.
      * right. by eexists.
    + left. exists (python_findings tree). by apply detect_base_parsed.
  - left. exists []. by rewrite appended_nil, detect_other_type.
Qed.

(** C9. What the analyzer returns does not depend on the analyzer object,
    and what the detector returns does not depend on the world it is called
    in, that is on any earlier call: both are functions of the code and the
    file type. Run twice on the same input, the detector returns equal
    results, and the second run leaves the list returned by the first as it
    was. *)
Theorem analysis_depends_on_input_only {lib : Libraries}
    (analyzer1 analyzer2 : CodeAnalyzer.t) (w1 w2 : world) (code file_type : string) :
  CodeAnalyzer._analyze_code analyzer1 code file_type
  = CodeAnalyzer._analyze_code analyzer2 code file_type
  /\ returned (BugPatternDetector.detect BugPatternDetector.base code file_type w1)
     = findings code file_type
  /\ returned (BugPatternDetector.detect BugPatternDetector.base code file_type w1)
     = returned (BugPatternDetector.detect BugPatternDetector.base code file_type w2)
  /\ (let first := BugPatternDetector.detect BugPatternDetector.base code file_type w1 in
      let second :=
        BugPatternDetector.detect BugPatternDetector.base code file_type (snd first) in
      returned second = returned first
      /\ read (snd second) (fst first) = returned first).
Proof.
  split; [done|]. split; [apply detect_returns|].
  split; [by rewrite !detect_returns|].
  intros first second.
  assert (Hsame : returned second = returned first)
    by (unfold first, second; by rewrite !detect_returns).
  split; [done|]. unfold second, first in *. clear first second Hsame.
  destruct (detect_base_cases code file_type w1) as [[found ->]|[e ->]]; [|done].
  cbn [fst snd]. unfold returned. cbn [fst snd read]. rewrite lookup_started.
  set (w := appended (started w1) found).
  assert (Hlive : (length (heap w1) < length (heap w))%nat).
  { unfold w, appended, started; simpl. rewrite length_alter, length_app. simpl. lia. }
  assert (Hkept : heap w !! length (heap w1) = Some found)
    by apply lookup_started.
  destruct (detect_base_cases code file_type w) as [[found' ->]|[e ->]];
    cbn [fst snd].
  - by rewrite lookup_before_started, Hkept.
  - rewrite <- (appended_nil (started w)). by rewrite lookup_before_started, Hkept.
Qed.

(** ** Vulnerabilities *)









(** * Further properties *)

(** ** Bare except clauses and the kinds of findings *)

Lemma filter_type_mutable_default_other (type : string) (nodes : list ast.AST) :
  type <> "Mutable Default Argument" ->
  filter (has_type type) (flat_map mutable_default_findings nodes) = [].
Proof.
  intros Htype. induction nodes as [|node nodes IH]; simpl; [done|].
  rewrite filter_app, IH, app_nil_r.
  destruct node; try done. simpl.
  induction (length _) as [|n IHn]; simpl; [done|].
  rewrite filter_cons, decide_False; [done|].
  unfold has_type. rewrite bool_decide_eq_false_2; [by intros []|].
  intros [= Heq]. by apply Htype.
Qed.

Lemma bare_except_findings_replicate (nodes : list ast.AST) :
  flat_map bare_except_findings nodes
  = replicate (length (filter is_bare_handler nodes)) bare_except_finding.
Proof.
  induction nodes as [|node nodes IH]; simpl; [done|].
  rewrite filter_cons, IH.
  by destruct node as [| | | | | | | | | | | | | | |[?|] ? ?| | |].
Qed.

Lemma filter_type_replicate_bare (n : nat) :
  filter (has_type "Bare Except Clause") (replicate n bare_except_finding)
  = replicate n bare_except_finding.
Proof. induction n as [|n IH]; simpl; [done|]. by rewrite filter_cons, IH. Qed.

Lemma python_findings_of (lib : Libraries) (code : string) (tree : ast.AST) (w : world) :
  ast_parse code = inr tree ->
  returned (BugPatternDetector.detect BugPatternDetector.base code ".py" w)
  = inr (Some (python_findings tree)).
Proof.
  intros Hparse. rewrite detect_returns. unfold findings.
  by rewrite decide_True, Hparse.
Qed.

(** X1. For a source that parses, the findings of type "Bare Except Clause"
    are as many as there are exception handlers without exception type
    anywhere in the tree, all the same record: severity MEDIUM and no
    [function] entry. *)
Theorem bare_except_finding_per_untyped_handler {lib : Libraries} (code : string)
    (tree : ast.AST) (w : world) :
  ast_parse code = inr tree ->
  exists found,
    returned (BugPatternDetector.detect BugPatternDetector.base code ".py" w)
    = inr (Some found)
    /\ filter (has_type "Bare Except Clause") found
       = replicate (Z.to_nat (count_nodes is_bare_handler tree)) bare_except_finding
    /\ bare_except_finding !! "severity" = Some "MEDIUM"
    /\ bare_except_finding !! "function" = None.
Proof.
  intros Hparse. exists (python_findings tree).
  split; [by apply python_findings_of|]. split; [|by split].
  unfold python_findings, count_nodes, len.
  rewrite filter_app, filter_type_mutable_default_other, app_nil_r by done.
  rewrite bare_except_findings_replicate, filter_type_replicate_bare, Nat2Z.id.
  by rewrite (walk_nodes tree).
Qed.

Lemma bare_except_finding_per_untyped_handler_witness :
  @ast_parse Samples.libraries Samples.branches_source = inr Samples.branches_tree
  /\ exists found,
       returned (@BugPatternDetector.detect Samples.libraries BugPatternDetector.base
                   Samples.branches_source ".py" Samples.new_detector)
       = inr (Some found)
       /\ filter (has_type "Bare Except Clause") found = [bare_except_finding].
Proof.
  split; [reflexivity|].
  destruct (@bare_except_finding_per_untyped_handler Samples.libraries
              Samples.branches_source Samples.branches_tree Samples.new_detector
              eq_refl) as (found & Hfound & Hbare & _).
  exists found. split; [exact Hfound|exact Hbare].
Defined.

(** X2. Whatever the code and the file type, a finding the detector returns
    is the bare-except record or the mutable-default record of some function:
    nothing is ever reported about unused variables. *)
Theorem findings_are_of_two_kinds {lib : Libraries} (code file_type : string)
    (w : world) (found : list finding) :
  returned (BugPatternDetector.detect BugPatternDetector.base code file_type w)
  = inr (Some found) ->
  Forall (fun f => f = bare_except_finding
                   \/ exists function, f = mutable_default_finding function)
         found.
Proof.
  rewrite detect_returns. unfold findings.
  destruct (decide (file_type = ".py")) as [->|_]; [|by intros [= <-]].
  destruct (ast_parse code) as [[message|class message]|tree]; try done;
    [by intros [= <-]|].
  intros [= <-]. unfold python_findings. apply Forall_app. split.
  - rewrite bare_except_findings_replicate. apply Forall_replicate. by left.
  - induction (ast.walk tree) as [|node nodes IH]; simpl; [done|].
    apply Forall_app. split; [|done].
    destruct node; try done. simpl. apply Forall_replicate. right. by eexists.
Qed.

Lemma findings_are_of_two_kinds_witness :
  returned (@BugPatternDetector.detect Samples.libraries BugPatternDetector.base
              Samples.two_defaults_source ".py" Samples.new_detector)
  = inr (Some [mutable_default_finding "f"; mutable_default_finding "f"])
  /\ Forall (fun f => f = bare_except_finding
                      \/ exists function, f = mutable_default_finding function)
            [mutable_default_finding "f"; mutable_default_finding "f"].
Proof.
  assert (Hfound :
    returned (@BugPatternDetector.detect Samples.libraries BugPatternDetector.base
                Samples.two_defaults_source ".py" Samples.new_detector)
    = inr (Some [mutable_default_finding "f"; mutable_default_finding "f"]))
    by reflexivity.
  split; [exact Hfound|].
  exact (@findings_are_of_two_kinds Samples.libraries Samples.two_defaults_source
           ".py" Samples.new_detector _ Hfound).
Defined.

(** X3. The returned findings are grouped by check, not ordered by source
    position: all bare-except findings come first, then all mutable-default
    findings. *)
Theorem bare_except_findings_come_first {lib : Libraries} (code file_type : string)
    (w : world) (found : list finding) :
  returned (BugPatternDetector.detect BugPatternDetector.base code file_type w)
  = inr (Some found) ->
  found = filter (has_type "Bare Except Clause") found
            ++ filter (has_type "Mutable Default Argument") found.
Proof.
  rewrite detect_returns. unfold findings.
  destruct (decide (file_type = ".py")) as [->|_]; [|by intros [= <-]].
  destruct (ast_parse code) as [[message|class message]|tree]; try done;
    [by intros [= <-]|].
  intros [= <-]. unfold python_findings. rewrite !filter_app.
  rewrite (filter_type_mutable_default_other "Bare Except Clause") by done.
  rewrite (filter_type_bare_except "Mutable Default Argument") by done.
  rewrite filter_type_mutable_default, bare_except_findings_replicate.
  by rewrite filter_type_replicate_bare, app_nil_r.
Qed.

Lemma bare_except_findings_come_first_witness :
  returned (@BugPatternDetector.detect SampleFiles.libraries BugPatternDetector.base
              SampleFiles.mixed_source ".py" Samples.new_detector)
  = inr (Some [bare_except_finding; mutable_default_finding "g"])
  /\ [bare_except_finding; mutable_default_finding "g"]
     = filter (has_type "Bare Except Clause")
         [bare_except_finding; mutable_default_finding "g"]
       ++ filter (has_type "Mutable Default Argument")
            [bare_except_finding; mutable_default_finding "g"].
Proof.
  assert (Hfound :
    returned (@BugPatternDetector.detect SampleFiles.libraries BugPatternDetector.base
                SampleFiles.mixed_source ".py" Samples.new_detector)
    = inr (Some [bare_except_finding; mutable_default_finding "g"]))
    by reflexivity.
  split; [exact Hfound|].
  exact (@bare_except_findings_come_first SampleFiles.libraries
           SampleFiles.mixed_source ".py" Samples.new_detector _ Hfound).
Defined.

(** ** Complexity, node by node *)

Lemma total_app {A : Type} (weight : A -> Z) (xs ys : list A) :
  total weight (xs ++ ys) = total weight xs + total weight ys.
Proof. induction xs as [|x xs IH]; simpl; lia. Qed.

Lemma total_concat_map {A B : Type} (weight : B -> Z) (f : A -> list B) (xs : list A) :
  total weight (concat (map f xs)) = total (fun x => total weight (f x)) xs.
Proof. induction xs as [|x xs IH]; simpl; [done|]. rewrite total_app. lia. Qed.

Lemma total_ext {A : Type} (weight weight' : A -> Z) (xs : list A) :
  (forall x, weight x = weight' x) -> total weight xs = total weight' xs.
Proof. intros Hw. induction xs as [|x xs IH]; simpl; [done|]. by rewrite Hw, IH. Qed.

(** X4. The complexity of a node is 1, plus what the node itself adds (1 for
    a branch node, N - 1 for a boolean operation with N operands), plus, for
    every child, the complexity of the child's subtree less its base 1: the
    complexity of a file is built up from the complexities of its parts. *)
Theorem complexity_of_node_from_children (self : CodeAnalyzer.t) (node : ast.AST) :
  CodeAnalyzer._calculate_complexity self node
  = 1 + own_complexity node
    + total (fun child => CodeAnalyzer._calculate_complexity self child - 1)
            (ast.iter_child_nodes node).
Proof.
  rewrite (total_ext (fun child => CodeAnalyzer._calculate_complexity self child - 1)
             (fun child => count_nodes is_branch child
                           + total operands_less_one (ast.nodes child)))
    by (intros child; rewrite calculate_complexity_total; lia).
  rewrite calculate_complexity_total.
  rewrite count_nodes_children, nodes_unfold. simpl.
  rewrite total_concat_map. unfold own_complexity.
  induction (ast.iter_child_nodes node) as [|child children IH]; simpl; lia.
Qed.

(** ** The entries of an analysis result *)

Lemma count_newlines_nonneg (s : string) : 0 <= count_newlines s.
Proof. induction s as [|c s IH]; simpl; [lia|]. destruct (Ascii.eqb c _); lia. Qed.

Lemma split_newline_count (s : string) :
  len (split_newline s) = 1 + count_newlines s.
Proof.
  unfold len. induction s as [|c s IH]; simpl; [done|].
  pose proof (count_newlines_nonneg s).
  destruct (Ascii.eqb c _); simpl length; [lia|].
  destruct (split_newline s); simpl in *; lia.
Qed.

(** Every result the analysis returns: the four starting entries as they
    were set, no [error] and no [file_path], and a complexity that, when
    present, is an int. *)
Lemma analyze_code_entries {lib : Libraries} (self : CodeAnalyzer.t)
    (code file_extension : string) (results : gmap string value) :
  CodeAnalyzer._analyze_code self code file_extension = inr results ->
  results !! "lines_of_code" = Some (VInt (len (split_newline code)))
  /\ results !! "file_type" = Some (VStr file_extension)
  /\ results !! "issues" = Some (VList [])
  /\ results !! "metrics" = Some (VDict [])
  /\ results !! "error" = None
  /\ results !! "file_path" = None
  /\ (results !! "complexity" = None
      \/ exists c, results !! "complexity" = Some (VInt c)).
Proof.
  unfold CodeAnalyzer._analyze_code, CodeAnalyzer._analyze_python,
    CodeAnalyzer._analyze_javascript, CodeAnalyzer.update.
  generalize (len (split_newline code)) as lines.
  destruct (decide (file_extension = ".py")) as [->|Hpy].
  - destruct (ast_parse code) as [[message|class message]|tree]; [| |]; intros lines.
    + intros [= <-]. repeat split; try (vm_compute; reflexivity).
      left. vm_compute. reflexivity.
    + discriminate.
    + generalize (CodeAnalyzer._calculate_complexity self tree)
                 (CodeAnalyzer._count_functions self tree)
                 (CodeAnalyzer._count_classes self tree)
                 (CodeAnalyzer._extract_imports self tree).
      intros complexity functions classes imports [= <-].
      repeat split; try (vm_compute; reflexivity).
      right. exists complexity. vm_compute. reflexivity.
  - intros lines. destruct (decide (file_extension ∈ [".js"; ".ts"])).
    + generalize (re_findall "function\s+\w+" code) (re_findall "=>" code)
                 (re_findall "class\s+\w+" code).
      intros functions arrows classes [= <-].
      repeat split; try (vm_compute; reflexivity).
      left. vm_compute. reflexivity.
    + intros [= <-]. repeat split; try (vm_compute; reflexivity).
      left. vm_compute. reflexivity.
Qed.

(** X5. Whenever the analysis returns, whatever the extension, the result
    has the four entries it starts with, untouched by the language analysis:
    the line count is one more than the number of line breaks of the text (so
    an empty text has one line), the file type is the extension given, the
    issue list is empty and the metrics dict is empty. *)
Theorem analysis_keeps_starting_entries {lib : Libraries} (self : CodeAnalyzer.t)
    (code file_extension : string) (results : gmap string value) :
  CodeAnalyzer._analyze_code self code file_extension = inr results ->
  results !! "lines_of_code" = Some (VInt (1 + count_newlines code))
  /\ 1 <= 1 + count_newlines code
  /\ results !! "file_type" = Some (VStr file_extension)
  /\ results !! "issues" = Some (VList [])
  /\ results !! "metrics" = Some (VDict []).
Proof.
  intros (Hlines & Htype & Hissues & Hmetrics & _)%analyze_code_entries.
  rewrite split_newline_count in Hlines.
  pose proof (count_newlines_nonneg code). repeat split; try done. lia.
Qed.

Lemma analysis_keeps_starting_entries_witness :
  (exists results,
     @CodeAnalyzer._analyze_code Samples.libraries Samples.new_analyzer
       Samples.script_source ".js" = inr results
     /\ results !! "lines_of_code" = Some (VInt 1)
     /\ results !! "issues" = Some (VList []))
  /\ (exists results,
        @CodeAnalyzer._analyze_code Samples.libraries Samples.new_analyzer
          Samples.branches_source ".py" = inr results
        /\ results !! "lines_of_code" = Some (VInt 6)
        /\ results !! "issues" = Some (VList [])).
Proof.
  split; eexists; (split; [reflexivity|]).
  - destruct (@analysis_keeps_starting_entries Samples.libraries Samples.new_analyzer
                Samples.script_source ".js" _ eq_refl)
      as (Hlines & _ & _ & Hissues & _).
    split; [exact Hlines|exact Hissues].
  - destruct (@analysis_keeps_starting_entries Samples.libraries Samples.new_analyzer
                Samples.branches_source ".py" _ eq_refl)
      as (Hlines & _ & _ & Hissues & _).
    split; [exact Hlines|exact Hissues].
Defined.

(** ** Files and directories *)

Section Files.
Context {lib : Libraries} {fs : FileSystem}.

(** A file result is an error result or an analysis result. *)
Lemma analyze_file_cases (self : CodeAnalyzer.t) (file_path : string) :
  (exists message,
     CodeAnalyzer.analyze_file self file_path = {[ "error" := VStr message ]})
  \/ (exists content,
        read_text file_path = inr content
        /\ CodeAnalyzer._analyze_code self content (path_suffix file_path)
           = inr (CodeAnalyzer.analyze_file self file_path)).
Proof.
  unfold CodeAnalyzer.analyze_file.
  destruct (path_exists file_path) as [e|[|]]; [left; by eexists| |left; by eexists].
  destruct (read_text file_path) as [e|content]; [left; by eexists|].
  destruct (CodeAnalyzer._analyze_code self content (path_suffix file_path))
    as [e|results] eqn:Hresults; [left; by eexists|].
  right. by exists content.
Qed.

Lemma analyze_file_no_path (self : CodeAnalyzer.t) (file_path : string) :
  CodeAnalyzer.analyze_file self file_path !! "file_path" = None.
Proof.
  destruct (analyze_file_cases self file_path) as [[message ->]|(content & _ & Hcode)].
  - vm_compute. reflexivity.
  - by apply analyze_code_entries in Hcode as (_ & _ & _ & _ & _ & Hpath & _).
Qed.

End Files.

(** X6. A file result carries either an error or a line count, never both
    and never neither: it is the one-entry dict [error], or it has no [error]
    and has the line count of the text read and the path's suffix as file
    type. A missing file gives the error "File not found: " and the path. A
    Python file with a syntax error is not an error result: the message
    sits under [syntax_error]. *)
Theorem file_result_is_error_or_analysis {lib : Libraries} {fs : FileSystem}
    (self : CodeAnalyzer.t) (file_path : string) :
  ((exists message,
      CodeAnalyzer.analyze_file self file_path = {[ "error" := VStr message ]})
   \/ (CodeAnalyzer.analyze_file self file_path !! "error" = None
       /\ exists content,
            read_text file_path = inr content
            /\ CodeAnalyzer.analyze_file self file_path !! "lines_of_code"
               = Some (VInt (1 + count_newlines content))
            /\ CodeAnalyzer.analyze_file self file_path !! "file_type"
               = Some (VStr (path_suffix file_path))))
  /\ (path_exists file_path = inr false ->
      CodeAnalyzer.analyze_file self file_path
      = {[ "error" := VStr ("File not found: " +:+ file_path) ]})
  /\ (forall content message,
        path_exists file_path = inr true ->
        read_text file_path = inr content ->
        path_suffix file_path = ".py" ->
        ast_parse content = inl (SyntaxError message) ->
        CodeAnalyzer.analyze_file self file_path !! "error" = None
        /\ CodeAnalyzer.analyze_file self file_path !! "syntax_error"
           = Some (VStr message)).
Proof.
  split; [|split].
  - destruct (analyze_file_cases self file_path)
      as [Herror|(content & Hread & Hcode)]; [by left|right].
    pose proof (analyze_code_entries _ _ _ _ Hcode)
      as (Hlines & Htype & _ & _ & Herror & _).
    split; [done|]. exists content. by rewrite <- split_newline_count.
  - intros Hmissing. unfold CodeAnalyzer.analyze_file. by rewrite Hmissing.
  - intros content message Hexists Hread Hsuffix Hparse.
    unfold CodeAnalyzer.analyze_file. rewrite Hexists, Hread, Hsuffix. simpl.
    unfold CodeAnalyzer._analyze_code, CodeAnalyzer._analyze_python.
    rewrite Hparse, decide_True by done. unfold CodeAnalyzer.update.
    generalize (split_newline content). intros. by split; vm_compute.
Qed.

Lemma file_result_is_error_or_analysis_witness :
  (@path_exists SampleFiles.file_system "proj/gone.py" = inr false
   /\ @CodeAnalyzer.analyze_file Samples.libraries SampleFiles.file_system
        Samples.new_analyzer "proj/gone.py"
      = {[ "error" := VStr "File not found: proj/gone.py" ]})
  /\ (@path_exists SampleFiles.file_system "proj/broken.py" = inr true
      /\ @read_text SampleFiles.file_system "proj/broken.py" = inr Samples.broken_source
      /\ @path_suffix SampleFiles.file_system "proj/broken.py" = ".py"
      /\ @ast_parse Samples.libraries Samples.broken_source
         = inl (SyntaxError Samples.broken_message)
      /\ @CodeAnalyzer.analyze_file Samples.libraries SampleFiles.file_system
           Samples.new_analyzer "proj/broken.py" !! "error" = None
      /\ @CodeAnalyzer.analyze_file Samples.libraries SampleFiles.file_system
           Samples.new_analyzer "proj/broken.py" !! "syntax_error"
         = Some (VStr Samples.broken_message)).
Proof.
  split.
  - split; [reflexivity|].
    exact (proj1 (proj2 (@file_result_is_error_or_analysis Samples.libraries
                           SampleFiles.file_system Samples.new_analyzer
                           "proj/gone.py")) eq_refl).
  - do 4 (split; [reflexivity|]).
    exact (proj2 (proj2 (@file_result_is_error_or_analysis Samples.libraries
                           SampleFiles.file_system Samples.new_analyzer
                           "proj/broken.py"))
             Samples.broken_source Samples.broken_message
             eq_refl eq_refl eq_refl eq_refl).
Defined.

Section Directories.
Context {lib : Libraries} {fs : FileSystem}.

Lemma analyze_directory_scanned (self : CodeAnalyzer.t) (dir_path : string)
    (extensions : option (list string)) :
  CodeAnalyzer.analyze_directory self dir_path extensions
  = match matched_files dir_path extensions with
    | inr file_paths => inr (map (scanned self) file_paths)
    | inl e => inl e
    end.
Proof.
  unfold CodeAnalyzer.analyze_directory, matched_files.
  change (match extensions with
          | Some extensions0 => extensions0
          | None => [".py"; ".js"; ".ts"; ".java"; ".cpp"]
          end)
    with (default [".py"; ".js"; ".ts"; ".java"; ".cpp"] extensions).
  generalize (default [".py"; ".js"; ".ts"; ".java"; ".cpp"] extensions).
  intros exts.
  match goal with
  | |- foldl ?f (inr []) _ = match foldr ?g _ _ with _ => _ end =>
      set (step := f); set (gather := g)
  end.
  assert (Hraised : forall exts e, foldl step (inl e) exts = inl e)
    by (clear; induction exts as [|ext exts IH]; intros e; simpl; auto).
  assert (Hstep : forall exts results,
            foldl step (inr results) exts
            = match foldr gather (inr []) exts with
              | inr file_paths => inr (results ++ map (scanned self) file_paths)
              | inl e => inl e
              end).
  { clear exts. induction exts as [|ext exts IH]; intros results; cbn [foldl foldr].
    - simpl. by rewrite app_nil_r.
    - unfold step at 2, gather at 1.
      destruct (rglob dir_path ("*" +:+ ext)) as [e|file_paths]; [apply Hraised|].
      rewrite IH. destruct (foldr gather (inr []) exts) as [e|more]; [done|].
      cbv zeta.
      rewrite (foldl_append
                 (fun file_path =>
                    <["file_path" := VStr file_path]>
                      (CodeAnalyzer.analyze_file self file_path))).
      rewrite map_app. by rewrite app_assoc. }
  rewrite Hstep. by destruct (foldr gather (inr []) exts).
Qed.

End Directories.

(** X7. A directory scan follows the matches of [rglob], extension by
    extension in the order given (the five defaults when none are given). If
    [rglob] raises for an extension (it does for the pattern [**.py], which
    the extension [*.py] makes), the scan raises that exception and returns
    nothing. Otherwise it returns exactly one result per matched path, in
    extension order and, within an extension, in match order: each result is
    the file's own result with its path added under [file_path], which
    replaces no entry of the file's result. *)
Theorem directory_results_follow_matches {lib : Libraries} {fs : FileSystem}
    (self : CodeAnalyzer.t) (dir_path : string) (extensions : option (list string)) :
  (forall e,
     matched_files dir_path extensions = inl e ->
     CodeAnalyzer.analyze_directory self dir_path extensions = inl e)
  /\ (forall file_paths,
        matched_files dir_path extensions = inr file_paths ->
        exists results,
          CodeAnalyzer.analyze_directory self dir_path extensions = inr results
          /\ Forall2 (fun file_path result =>
                        result !! "file_path" = Some (VStr file_path)
                        /\ delete "file_path" result
                           = CodeAnalyzer.analyze_file self file_path)
                     file_paths results)
  /\ (forall ext exts e,
        rglob dir_path ("*" +:+ ext) = inl e ->
        matched_files dir_path (Some (ext :: exts)) = inl e)
  /\ (forall ext exts file_paths,
        rglob dir_path ("*" +:+ ext) = inr file_paths ->
        matched_files dir_path (Some (ext :: exts))
        = match matched_files dir_path (Some exts) with
          | inr more => inr (file_paths ++ more)
          | inl e => inl e
          end)
  /\ matched_files dir_path None
     = matched_files dir_path (Some [".py"; ".js"; ".ts"; ".java"; ".cpp"])
  /\ matched_files dir_path (Some []) = inr [].
Proof.
  split; [|split; [|split; [|split; [|split]]]].
  - intros e Hraised. by rewrite analyze_directory_scanned, Hraised.
  - intros file_paths Hmatched. exists (map (scanned self) file_paths).
    split; [by rewrite analyze_directory_scanned, Hmatched|].
    clear Hmatched. induction file_paths as [|file_path paths IH];
      simpl; constructor; [|done].
    unfold scanned. split; [apply lookup_insert_eq|].
    rewrite delete_insert_eq. apply delete_id, analyze_file_no_path.
  - intros ext exts e Hraised. unfold matched_files. simpl. by rewrite Hraised.
  - intros ext exts file_paths Hpaths. unfold matched_files. simpl.
    rewrite Hpaths. by destruct (foldr _ _ exts).
  - reflexivity.
  - reflexivity.
Qed.

Lemma directory_results_follow_matches_witness :
  (@matched_files SampleFiles.file_system "proj" (Some ["*.py"])
   = inl (Exception "ValueError"
            "Invalid pattern: '**' can only be an entire path component")
   /\ @CodeAnalyzer.analyze_directory Samples.libraries SampleFiles.file_system
        Samples.new_analyzer "proj" (Some ["*.py"])
      = inl (Exception "ValueError"
               "Invalid pattern: '**' can only be an entire path component"))
  /\ (@matched_files SampleFiles.file_system "proj" (Some [".js"; ".java"])
      = inr ["proj/ui.js"; "proj/Main.java"]
      /\ exists results,
           @CodeAnalyzer.analyze_directory Samples.libraries SampleFiles.file_system
             Samples.new_analyzer "proj" (Some [".js"; ".java"]) = inr results
           /\ Forall2 (fun file_path result =>
                         result !! "file_path" = Some (VStr file_path)
                         /\ delete "file_path" result
                            = @CodeAnalyzer.analyze_file Samples.libraries
                                SampleFiles.file_system Samples.new_analyzer file_path)
                      ["proj/ui.js"; "proj/Main.java"] results).
Proof.
  split.
  - split; [reflexivity|].
    exact (proj1 (@directory_results_follow_matches Samples.libraries
                    SampleFiles.file_system Samples.new_analyzer "proj"
                    (Some ["*.py"])) _ eq_refl).
  - split; [reflexivity|].
    exact (proj1 (proj2 (@directory_results_follow_matches Samples.libraries
                           SampleFiles.file_system Samples.new_analyzer "proj"
                           (Some [".js"; ".java"]))) _ eq_refl).
Defined.

(** ** The report *)

Lemma append_assoc (s1 s2 s3 : string) : (s1 +:+ s2) +:+ s3 = s1 +:+ s2 +:+ s3.
Proof.
  induction s1 as [|c s1 IH]; [done|].
  change (String c ((s1 +:+ s2) +:+ s3) = String c (s1 +:+ s2 +:+ s3)).
  by rewrite IH.
Qed.

(** X8. The report depends on four entries of each result only: the path,
    the line count, the complexity and the issues. Results that agree on
    these give the same report (or the same exception), so an [error] or
    [syntax_error] message, the function and class counts and the imports
    never show in it. *)
Theorem report_reads_four_entries {bi : Builtins} (self : CodeAnalyzer.t)
    (results1 results2 : list (gmap string value)) :
  Forall2 same_reported results1 results2 ->
  CodeAnalyzer.generate_report self results1
  = CodeAnalyzer.generate_report self results2.
Proof.
  intros Hsame. unfold CodeAnalyzer.generate_report.
  assert (len results1 = len results2) as ->
    by (unfold len; by rewrite (Forall2_length _ _ _ Hsame)).
  assert (map (fun r : gmap string value => default (VInt 0) (r !! "lines_of_code"))
            results1
          = map (fun r : gmap string value => default (VInt 0) (r !! "lines_of_code"))
              results2) as ->.
  { induction Hsame as [|r1 r2 rs1 rs2 (_ & Hlines & _) _ IH]; simpl; [done|].
    by rewrite Hlines, IH. }
  destruct (sum_values _) as [e|total_loc]; [done|].
  generalize (@inr exn string
                ((("# Code Analysis Report" +:+ newline +:+ newline)
                    +:+ "Total files analyzed: " +:+ pretty (len results2)
                    +:+ newline +:+ newline)
                   +:+ "Total lines of code: " +:+ pretty total_loc
                   +:+ newline +:+ newline)).
  induction Hsame as [|r1 r2 rs1 rs2 (Hpath & Hlines & Hcomplexity & Hissues) _ IH];
    intros report; simpl; [done|].
  rewrite Hpath, Hlines, Hcomplexity, Hissues. apply IH.
Qed.

Lemma report_reads_four_entries_witness :
  Forall2 same_reported
    [ {[ "file_path" := VStr "a.py"; "error" := VStr "unreadable" ]} ]
    [ {[ "file_path" := VStr "a.py" ]} ]
  /\ @CodeAnalyzer.generate_report SampleFiles.builtins Samples.new_analyzer
       [ {[ "file_path" := VStr "a.py"; "error" := VStr "unreadable" ]} ]
     = @CodeAnalyzer.generate_report SampleFiles.builtins Samples.new_analyzer
         [ {[ "file_path" := VStr "a.py" ]} ].
Proof.
  assert (Hsame : Forall2 same_reported
            [ {[ "file_path" := VStr "a.py"; "error" := VStr "unreadable" ]} ]
            [ {[ "file_path" := VStr "a.py" ]} ]).
  { constructor; [|constructor]. repeat split; vm_compute; reflexivity. }
  split; [exact Hsame|].
  exact (@report_reads_four_entries SampleFiles.builtins Samples.new_analyzer _ _
           Hsame).
Defined.

Section DirectoryReport.
Context {lib : Libraries} {fs : FileSystem} {bi : Builtins}.

(** What the report reads in the result of a scanned file. *)
Lemma scanned_entries (self : CodeAnalyzer.t) (file_path : string) :
  scanned self file_path !! "file_path" = Some (VStr file_path)
  /\ (scanned self file_path !! "lines_of_code" = None
      \/ exists n, scanned self file_path !! "lines_of_code" = Some (VInt n))
  /\ (scanned self file_path !! "complexity" = None
      \/ exists c, scanned self file_path !! "complexity" = Some (VInt c))
  /\ (scanned self file_path !! "issues" = None
      \/ scanned self file_path !! "issues" = Some (VList []))
  /\ lines_of (scanned self file_path)
     = lines_of (CodeAnalyzer.analyze_file self file_path)
  /\ complexity_text (scanned self file_path)
     = complexity_text (CodeAnalyzer.analyze_file self file_path).
Proof.
  unfold scanned, lines_of, complexity_text.
  rewrite lookup_insert_eq, !lookup_insert_ne by done.
  split; [done|].
  destruct (analyze_file_cases self file_path) as [[message ->]|(content & _ & Hcode)].
  - rewrite !lookup_singleton_ne by done. by repeat split; try left.
  - apply analyze_code_entries in Hcode
      as (Hlines & _ & Hissues & _ & _ & _ & Hcomplexity).
    rewrite Hlines, Hissues. repeat split; eauto.
Qed.

Lemma sum_values_lines (results : list (gmap string value)) (start : Z) :
  Forall (fun r : gmap string value =>
            r !! "lines_of_code" = None
            \/ exists n, r !! "lines_of_code" = Some (VInt n)) results ->
  foldl (fun total v =>
           match total, v with
           | inl e, _ => inl e
           | inr total, VInt n => inr (total + n)
           | inr _, VStr _ =>
               inl (Exception "TypeError"
                      "unsupported operand type(s) for +: 'int' and 'str'")
           | inr _, VList _ =>
               inl (Exception "TypeError"
                      "unsupported operand type(s) for +: 'int' and 'list'")
           | inr _, VDict _ =>
               inl (Exception "TypeError"
                      "unsupported operand type(s) for +: 'int' and 'dict'")
           end)
        (inr start)
        (map (fun r : gmap string value => default (VInt 0) (r !! "lines_of_code"))
             results)
  = inr (start + total lines_of results).
Proof.
  intros Hints. revert start.
  induction Hints as [|r rs Hr _ IH]; intros start; simpl.
  - f_equal. lia.
  - unfold lines_of at 1. destruct Hr as [->|[n ->]]; simpl; rewrite IH; f_equal; lia.
Qed.

End DirectoryReport.

(** X9. Whenever a directory scan returns (no pattern was refused by
    [rglob]), the report of its results is produced (adding up the line counts
    does not fail) and is the head, with the number of matched files and the
    sum of their line counts, followed by one four-line section per matched
    file: its path, its line count (0 for a file that gave an error result),
    its complexity ("N/A" when the result has none) and an empty line. No
    issue is ever listed. *)
Theorem directory_report_is_plain {lib : Libraries} {fs : FileSystem} {bi : Builtins}
    (self : CodeAnalyzer.t) (dir_path : string) (extensions : option (list string))
    (results : list (gmap string value)) :
  CodeAnalyzer.analyze_directory self dir_path extensions = inr results ->
  exists files,
    matched_files dir_path extensions = inr files
    /\ CodeAnalyzer.generate_report self results
       = inr (report_head (len files)
                (total (fun file_path =>
                          lines_of (CodeAnalyzer.analyze_file self file_path)) files)
              +:+ join (map (file_section self) files)).
Proof.
  rewrite analyze_directory_scanned.
  destruct (matched_files dir_path extensions) as [e|files]; [done|].
  intros [= <-]. exists files. split; [done|].
  unfold CodeAnalyzer.generate_report, sum_values.
  rewrite sum_values_lines
    by (apply Forall_forall; intros r (file_path & -> & _)%list_elem_of_fmap;
        apply scanned_entries).
  assert (len (map (scanned self) files) = len files) as ->
    by (unfold len; by rewrite length_map).
  assert (0 + total lines_of (map (scanned self) files)
          = total (fun file_path =>
                     lines_of (CodeAnalyzer.analyze_file self file_path)) files) as ->.
  { induction files as [|file_path paths IH]; simpl; [done|].
    destruct (scanned_entries self file_path) as (_ & _ & _ & _ & -> & _). lia. }
  match goal with
  | |- foldl ?f (inr _) _ = _ => set (step := f)
  end.
  assert (Hstep : forall report file_path,
            step (inr report) (scanned self file_path)
            = inr (report +:+ file_section self file_path)).
  { intros report file_path. unfold step, file_section, plain_section.
    destruct (scanned_entries self file_path)
      as (Hpath & Hlines & Hcomplexity & Hissues & <- & <-).
    unfold lines_of, complexity_text. rewrite Hpath.
    destruct Hlines as [->|[n ->]], Hcomplexity as [->|[c ->]],
      Hissues as [->| ->]; simpl; by rewrite !append_assoc. }
  assert (Hsections : forall report,
            foldl step (inr report) (map (scanned self) files)
            = inr (report +:+ join (map (file_section self) files))).
  { clear -Hstep. induction files as [|file_path paths IH]; intros report.
    - simpl. f_equal. induction report as [|c report IHr]; [done|].
      change (String c report = String c (report +:+ "")). by rewrite <- IHr.
    - cbn [map foldl]. rewrite Hstep, IH. simpl. by rewrite append_assoc. }
  rewrite Hsections. f_equal. unfold report_head. by rewrite !append_assoc.
Qed.

Lemma directory_report_is_plain_witness :
  exists results,
    @CodeAnalyzer.analyze_directory Samples.libraries SampleFiles.file_system
      Samples.new_analyzer "proj" (Some [".js"; ".java"]) = inr results
    /\ exists files,
         @matched_files SampleFiles.file_system "proj" (Some [".js"; ".java"])
         = inr files
         /\ @CodeAnalyzer.generate_report SampleFiles.builtins Samples.new_analyzer
              results
            = inr (report_head (len files)
                     (total (fun file_path =>
                               lines_of (@CodeAnalyzer.analyze_file Samples.libraries
                                           SampleFiles.file_system
                                           Samples.new_analyzer file_path)) files)
                   +:+ join (map (@file_section Samples.libraries
                                    SampleFiles.file_system Samples.new_analyzer)
                                 files)).
Proof.
  eexists. split; [reflexivity|].
  exact (@directory_report_is_plain Samples.libraries SampleFiles.file_system
           SampleFiles.builtins Samples.new_analyzer "proj" (Some [".js"; ".java"])
           _ eq_refl).
Defined.




(** ** Imports, again *)

Lemma alias_nodes_no_children (names : list ast.alias) :
  flat_map ast.iter_child_nodes (map ast.Alias names) = [].
Proof. induction names; simpl; auto. Qed.

(** The entries below a module body that holds a [from] statement do not
    depend on the aliases of the statement. *)
Lemma entries_below_import (before after : list ast.AST) (names : list ast.alias) :
  flat_map import_entries
    (ast.walk_queue (before ++ map ast.Alias names ++ after))
  = flat_map import_entries
      (ast.walk_queue (before ++ after)).
Proof.
  rewrite (walk_queue_app before (map ast.Alias names ++ after)).
  rewrite (walk_queue_app before after), !flat_map_app. f_equal.
  rewrite <- app_assoc, (walk_queue_app (map ast.Alias names)), flat_map_app.
  by rewrite flat_map_constant_nil, alias_nodes_no_children, app_nil_r.
Qed.

(** X11. The import list does not record the relative level of a [from]
    import, nor the [as] names: replacing a module-level
    [from M import ...] statement by one with the same module and the same
    imported names, whatever its level and its [as] names, leaves the import
    list unchanged (so [from .pkg import x as y] is listed like
    [from pkg import x]). *)
Theorem import_list_ignores_level_and_as_names (self : CodeAnalyzer.t)
    (before after type_ignores : list ast.AST) (module : option string)
    (names1 names2 : list ast.alias) (level1 level2 : nat) :
  map ast.name names1 = map ast.name names2 ->
  CodeAnalyzer._extract_imports self
    (ast.Module (before ++ ast.ImportFrom module names1 level1 :: after) type_ignores)
  = CodeAnalyzer._extract_imports self
      (ast.Module (before ++ ast.ImportFrom module names2 level2 :: after) type_ignores).
Proof.
  intros Hnames. rewrite !extract_imports_walk, !walk_module.
  cbn [flat_map]. simpl (import_entries (ast.Module _ _)). cbn [app].
  rewrite !flat_map_app. cbn [flat_map].
  simpl (ast.iter_child_nodes (ast.ImportFrom _ _ _)).
  assert (import_entries (ast.ImportFrom module names1 level1)
          = import_entries (ast.ImportFrom module names2 level2)) as ->.
  { destruct module as [module|]; simpl.
    - by rewrite <- (map_map ast.name (fun name => module +:+ "." +:+ name)),
        Hnames, map_map.
    - by rewrite <- (map_map ast.name (fun name => "." +:+ name)), Hnames, map_map. }
  f_equal.
  rewrite !(app_assoc type_ignores (flat_map ast.iter_child_nodes before)).
  by rewrite !entries_below_import.
Qed.

Lemma import_list_ignores_level_and_as_names_witness :
  map ast.name [{| ast.name := "x"; ast.asname := Some "y" |}]
  = map ast.name [{| ast.name := "x"; ast.asname := None |}]
  /\ CodeAnalyzer._extract_imports Samples.new_analyzer
       (ast.Module
          ([ast.Import [Samples.alias "os"]]
             ++ ast.ImportFrom (Some "pkg")
                  [{| ast.name := "x"; ast.asname := Some "y" |}] 1 :: [])
          [])
     = CodeAnalyzer._extract_imports Samples.new_analyzer
         (ast.Module
            ([ast.Import [Samples.alias "os"]]
               ++ ast.ImportFrom (Some "pkg")
                    [{| ast.name := "x"; ast.asname := None |}] 0 :: [])
            []).
Proof.
  split; [reflexivity|].
  exact (@import_list_ignores_level_and_as_names Samples.new_analyzer
           [ast.Import [Samples.alias "os"]] [] [] (Some "pkg") _ _ 1%nat 0%nat
           eq_refl).
Defined.

(** ** Which files get a complexity *)

Lemma analyze_code_complexity {lib : Libraries} (self : CodeAnalyzer.t)
    (code file_extension : string) (results : gmap string value) (c : Z) :
  CodeAnalyzer._analyze_code self code file_extension = inr results ->
  results !! "complexity" = Some (VInt c) <->
  file_extension = ".py"
  /\ exists tree, ast_parse code = inr tree
                  /\ c = CodeAnalyzer._calculate_complexity self tree.
Proof.
  unfold CodeAnalyzer._analyze_code, CodeAnalyzer._analyze_python,
    CodeAnalyzer._analyze_javascript, CodeAnalyzer.update.
  generalize (len (split_newline code)) as lines.
  destruct (decide (file_extension = ".py")) as [->|Hpy].
  - destruct (ast_parse code) as [[message|class message]|tree]; intros lines.
    + intros [= <-]. split; [by vm_compute|]. by intros (_ & tree & [=] & _).
    + discriminate.
    + generalize (CodeAnalyzer._count_functions self tree)
                 (CodeAnalyzer._count_classes self tree)
                 (CodeAnalyzer._extract_imports self tree).
      intros functions classes imports [= <-].
      assert (Hlookup : forall complexity,
        (({[ "complexity" := VInt complexity; "functions" := VInt functions;
             "classes" := VInt classes; "imports" := VList (VStr <$> imports) ]}
          : gmap string value)
         ∪ {[ "lines_of_code" := VInt lines; "file_type" := VStr ".py";
               "issues" := VList []; "metrics" := VDict [] ]}) !! "complexity"
        = Some (VInt complexity)) by (intros; vm_compute; reflexivity).
      rewrite Hlookup. split.
      * intros [= <-]. split; [done|]. by exists tree.
      * by intros (_ & tree' & [= <-] & ->).
  - intros lines Hcode. split; [|by intros [? _]]. revert Hcode.
    destruct (decide (file_extension ∈ [".js"; ".ts"])).
    + generalize (re_findall "function\s+\w+" code) (re_findall "=>" code)
                 (re_findall "class\s+\w+" code).
      intros functions arrows classes [= <-]. by vm_compute.
    + intros [= <-]. by vm_compute.
Qed.

(** X12. A file result has a complexity exactly when the file could be read,
    its suffix is [.py] and its text parses; the complexity is then that of
    the parsed tree. Scripts, other files, unreadable files and Python files
    with a syntax error have none (the report shows "N/A" for them). *)
Theorem file_complexity_iff_parsed_python {lib : Libraries} {fs : FileSystem}
    (self : CodeAnalyzer.t) (file_path : string) (c : Z) :
  CodeAnalyzer.analyze_file self file_path !! "complexity" = Some (VInt c) <->
  exists content tree,
    path_exists file_path = inr true
    /\ read_text file_path = inr content
    /\ path_suffix file_path = ".py"
    /\ ast_parse content = inr tree
    /\ c = CodeAnalyzer._calculate_complexity self tree.
Proof.
  unfold CodeAnalyzer.analyze_file.
  destruct (path_exists file_path) as [e|[|]];
    [split; [by vm_compute|by intros (? & ? & [=] & _)]
    | |split; [by vm_compute|by intros (? & ? & [=] & _)]].
  destruct (read_text file_path) as [e|content];
    [split; [by vm_compute|by intros (? & ? & _ & [=] & _)]|].
  destruct (CodeAnalyzer._analyze_code self content (path_suffix file_path))
    as [e|results] eqn:Hcode.
  - split; [by vm_compute|].
    intros (content' & tree & _ & [= <-] & Hsuffix & Hparse & _).
    revert Hcode. unfold CodeAnalyzer._analyze_code, CodeAnalyzer._analyze_python.
    by rewrite Hsuffix, decide_True, Hparse.
  - rewrite (analyze_code_complexity _ _ _ _ c Hcode). split.
    + intros (Hsuffix & tree & Hparse & ->). by exists content, tree.
    + intros (content' & tree & _ & [= <-] & Hsuffix & Hparse & ->).
      split; [done|]. by exists tree.
Qed.
